(** * The AODV example script (scratch/aodv.cc)

    A shallow embedding of the script [AodvExample] and of [main], with the
    parts of the ns-3 library the script calls into, and the properties of
    the script stated over it.

    Conventions.
    - [uint32_t] values are [Z] in the range [0, 2^32); subtraction wraps.
    - [double] values are exact rationals ([Q]); equalities between them are
      stated with [==].  Simulated time ([Time]) is counted in seconds.
    - Text assembled with [operator<<] is kept as the sequence of inserted
      items ([Text]); [render] turns it into characters, given the
      formatting of a [double].
    - Objects behind a [Ptr] live in stores of the [World] and are named by
      their index there, so every holder of the pointer sees one object.
    - Indexing a container outside its bounds has no defined behaviour in
      the source language; the model stops there with [OutOfRange].
    - A library call whose code is not part of the script is modelled from
      the specification, and says so. *)

From Stdlib Require Import ZArith QArith List Ascii String Bool Lia Lqa.
From Stdlib Require Import DecimalString Sorting.Sorted.
From Stdlib Require DecimalN DecimalPos.
Import ListNotations.

Open Scope Z_scope.

(** ** Basic values *)

Definition uint32_max : Z := 4294967295.

(** Reduction of an integer into the range of [uint32_t]. *)
Definition u32 (x : Z) : Z := x mod 4294967296.

Definition Time : Type := Q.

(** Modelled from the spec: ns3::Time is not under src/.  The spec counts
    simulated time in seconds; [Seconds (double)] is the time of that many
    seconds. *)
Definition Seconds (s : Q) : Time := s.

(** [Ipv4Address], the 32-bit host-order value. *)
Definition Ipv4Address : Type := Z.

(** The address written [a.b.c.d]. *)
Definition ipv4 (a b c d : Z) : Ipv4Address :=
  Z.lor (Z.shiftl a 24) (Z.lor (Z.shiftl b 16) (Z.lor (Z.shiftl c 8) d)).

(** [Ipv4Address::GetAny ()], 0.0.0.0. *)
Definition Ipv4_GetAny : Ipv4Address := ipv4 0 0 0 0.

(** ** Formatted text *)

Inductive Token : Type :=
| T_str (s : string)
| T_uint (n : Z)
| T_double (d : Q)
| T_ipv4 (a : Ipv4Address).

Definition Text : Type := list Token.

(** The end of a line. *)
Definition endl : string := String (ascii_of_nat 10) EmptyString.

Definition show_uint (n : Z) : string :=
  NilZero.string_of_uint (N.to_uint (Z.to_N n)).

Definition octet (a : Ipv4Address) (k : Z) : Z :=
  Z.land (Z.shiftr a (8 * k)) 255.

(** [operator<< (std::ostream &, Ipv4Address)]: dotted decimal. *)
Definition show_ipv4 (a : Ipv4Address) : string :=
  (show_uint (octet a 3) ++ "." ++ show_uint (octet a 2) ++ "."
   ++ show_uint (octet a 1) ++ "." ++ show_uint (octet a 0))%string.

Section Render.
(** How the stream writes a [double]. *)
Variable fmt : Q -> string.

Definition render_token (t : Token) : string :=
  match t with
  | T_str s => s
  | T_uint n => show_uint n
  | T_double d => fmt d
  | T_ipv4 a => show_ipv4 a
  end.

Fixpoint render (t : Text) : string :=
  match t with
  | [] => EmptyString
  | x :: r => (render_token x ++ render r)%string
  end.
End Render.

(** ** Addresses *)

(** Modelled from the spec: ns3::Address is not under src/.  An address is a
    tagged byte buffer; per the spec a source address either resolves to an
    Internet socket address or does not, so only that tag is told apart from
    the others. *)
Inductive Address : Type :=
| Address_empty                                   (* Address () *)
| Address_inet (ip : Ipv4Address) (port : Z)      (* InetSocketAddress *)
| Address_other (type : Z).

Record InetSocketAddress : Type := mkInet { GetIpv4 : Ipv4Address; GetPort : Z }.

Definition Inet_to_Address (a : InetSocketAddress) : Address :=
  Address_inet (GetIpv4 a) (GetPort a).

(** Modelled from the spec: [InetSocketAddress::IsMatchingType] is not under
    src/: whether the address resolves to an Internet socket address. *)
Definition IsMatchingType (a : Address) : bool :=
  match a with Address_inet _ _ => true | _ => false end.

(** Modelled from the spec: [InetSocketAddress::ConvertFrom] is not under
    src/; the script calls it under [IsMatchingType] only. *)
Definition ConvertFrom (a : Address) : InetSocketAddress :=
  match a with
  | Address_inet ip port => mkInet ip port
  | _ => mkInet 0 0
  end.

(** ** Positions *)

Record Vector : Type := mkVector { vx : Q; vy : Q; vz : Q }.

Module GridPositionAllocator.

(** The layout the script asks for; the spec describes no other. *)
Inductive LayoutType : Type := RowFirst.

Record t : Type := mk {
  MinX : Q;
  MinY : Q;
  DeltaX : Q;
  DeltaY : Q;
  GridWidth : Z;
  Layout : LayoutType;
  m_current : Z    (* the number of positions handed out so far *)
}.

(** Modelled from the spec: ns3::GridPositionAllocator is not under src/.
    The spec places the i-th allocated position at
    ((i mod W)·D, (i div W)·D) in row-major order; [GetNext] is that
    formula with the origin and the spacing of each axis taken from the
    attributes the script sets (MinX, MinY, DeltaX, DeltaY, GridWidth,
    LayoutType). *)
Definition GetNext (a : t) : Vector * t :=
  let i := m_current a in
  let w := GridWidth a in
  let p :=
    match Layout a with
    | RowFirst =>
        mkVector (MinX a + DeltaX a * inject_Z (i mod w))%Q
                 (MinY a + DeltaY a * inject_Z (i / w))%Q
                 0%Q
    end in
  (p, mk (MinX a) (MinY a) (DeltaX a) (DeltaY a) w (Layout a) (u32 (i + 1))).

End GridPositionAllocator.

(** ** Address assignment *)

Module Ipv4AddressHelper.

Record t : Type := mk {
  m_network : Z;
  m_mask : Z;
  m_address : Z;   (* the next host number *)
  m_max : Z        (* the last host number of the pool *)
}.

Fixpoint trailing_zeros (n : nat) (m : Z) : Z :=
  match n with
  | O => 0
  | S k => if Z.testbit m 0 then 0 else 1 + trailing_zeros k (Z.shiftr m 1)
  end.

(** The number of host bits a mask leaves. *)
Definition NumAddressBits (mask : Z) : Z := trailing_zeros 32 mask.

(** Modelled from the spec: ns3::Ipv4AddressHelper is not under src/.
    The pool of a subnet: hosts are numbered upwards from 1, as the
    header comment of the script shows (10.0.0.1, 10.0.0.2, ...); the host
    numbers 0 (the network itself) and all-ones (broadcast) are not in the
    pool. *)
Definition SetBase (network mask : Ipv4Address) : t :=
  mk network mask 1 (2 ^ NumAddressBits mask - 2).

(** Modelled from the spec: ns3::Ipv4AddressHelper is not under src/.
    Per the spec every device gets an address of the configured subnet, no
    address is handed out twice, and drawing from an exhausted pool is
    fatal: [None] stands for the exhausted pool. *)
Definition NewAddress (h : t) : option (Ipv4Address * t) :=
  if m_address h <=? m_max h
  then Some (Z.lor (m_network h) (m_address h),
             mk (m_network h) (m_mask h) (m_address h + 1) (m_max h))
  else None.

(** Membership of an address in the subnet [network]/[mask]. *)
Definition in_subnet (network mask a : Ipv4Address) : Prop :=
  Z.land a mask = Z.land network mask.

End Ipv4AddressHelper.

(** ** The event scheduler *)

Module Simulator.

Section WithAction.
Variable Action : Type.

Record Event : Type := mkEvent {
  ev_time : Time;
  ev_seq : nat;
  ev_action : Action
}.

Record t : Type := mk {
  now : Time;
  next_seq : nat;
  queue : list Event;
  stop_time : option Time
}.

Definition empty : t := mk 0%Q 0%nat [] None.

(** Modelled from the spec: ns3::Simulator is not under src/.  Per the
    spec an event is an action with an absolute fire time, ordered by
    (time, insertion sequence).  The queue is kept in that order: a
    new event goes behind every pending event that fires no later than
    it. *)
Fixpoint insert (e : Event) (q : list Event) : list Event :=
  match q with
  | [] => [e]
  | x :: r => if Qle_bool (ev_time x) (ev_time e)
              then x :: insert e r
              else e :: x :: r
  end.

(** Modelled from the spec: ns3::Simulator is not under src/.
    [Simulator::Schedule (delay, action)]: the event fires [delay] after the
    current time and takes the next sequence number. *)
Definition Schedule (delay : Time) (a : Action) (s : t) : t :=
  mk (now s) (S (next_seq s))
     (insert (mkEvent (now s + delay)%Q (next_seq s) a) (queue s))
     (stop_time s).

(** Modelled from the spec: ns3::Simulator is not under src/.  Per the
    spec cancellation removes a pending event before dispatch:
    [Simulator::Cancel], the pending event named by its sequence number. *)
Definition Cancel (id : nat) (s : t) : t :=
  mk (now s) (next_seq s)
     (filter (fun e => negb (Nat.eqb (ev_seq e) id)) (queue s))
     (stop_time s).

(** Modelled from the spec: ns3::Simulator is not under src/.
    [Simulator::Stop (delay)]: the stop time of the run. *)
Definition Stop (delay : Time) (s : t) : t :=
  mk (now s) (next_seq s) (queue s) (Some (now s + delay)%Q).

(** Modelled from the spec: ns3::Simulator is not under src/.  Per the
    spec all resources are released when the run ends: after
    [Simulator::Destroy] the next use starts afresh. *)
Definition Destroy (_ : t) : t := empty.

(** What a handler may ask of the scheduler while it runs. *)
Inductive Command : Type :=
| Cmd_schedule (delay : Time) (a : Action)
| Cmd_cancel (id : nat).

(** Modelled from the spec: ns3::Simulator is not under src/.  What a
    command of a handler does to the scheduler. *)
Definition exec (s : t) (c : Command) : t :=
  match c with
  | Cmd_schedule d a => Schedule d a s
  | Cmd_cancel id => Cancel id s
  end.

(** Modelled from the spec: ns3::Simulator is not under src/.  Is the
    event beyond the stop time? *)
Definition beyond_stop (s : t) (e : Event) : bool :=
  match stop_time s with
  | Some limit => negb (Qle_bool (ev_time e) limit)
  | None => false
  end.

Variable handler : Action -> Time -> list Command.

(** Modelled from the spec: ns3::Simulator is not under src/.  Per the
    spec a run dispatches the pending event with the least key until
    the queue is empty or the next event lies beyond the stop time, and
    such an event is never dispatched; the action of an event is executed
    by a handler, which may schedule and cancel events in turn.  [Run]
    is at most [fuel] dispatches of it: the events dispatched, in order,
    and the scheduler they leave. *)
Fixpoint Run (fuel : nat) (s : t) : list Event * t :=
  match fuel with
  | O => ([], s)
  | S fuel' =>
      match queue s with
      | [] => ([], s)
      | e :: q =>
          if beyond_stop s e then ([], s)
          else
            let s1 := mk (ev_time e) (next_seq s) q (stop_time s) in
            let s2 := fold_left exec (handler (ev_action e) (ev_time e)) s1 in
            let (d, s3) := Run fuel' s2 in
            (e :: d, s3)
      end
  end.

(** The dispatch key: earlier time first, insertion order among equals. *)
Definition key_lt (e1 e2 : Event) : Prop :=
  (ev_time e1 < ev_time e2)%Q
  \/ (ev_time e1 == ev_time e2 /\ (ev_seq e1 < ev_seq e2)%nat).

(** The scheduler's invariant: the queue is in dispatch order, nothing
    pending lies in the past, and sequence numbers are fresh. *)
Record wf (s : t) : Prop := mk_wf {
  wf_sorted : StronglySorted key_lt (queue s);
  wf_future : Forall (fun e => (now s <= ev_time e)%Q) (queue s);
  wf_fresh : Forall (fun e => (ev_seq e < next_seq s)%nat) (queue s)
}.

(** A command that does not schedule into the past. *)
Definition harmless (c : Command) : Prop :=
  match c with Cmd_schedule d _ => (0 <= d)%Q | Cmd_cancel _ => True end.

(** A handler that only schedules into the future. *)
Definition causal : Prop :=
  forall a t0 d a', In (Cmd_schedule d a') (handler a t0) -> (0 <= d)%Q.

(** An event that was dispatched before the scheduler got into state
    [s]: whatever is or becomes pending follows it in dispatch order. *)
Definition precedes (e0 : Event) (s : t) : Prop :=
  (ev_time e0 <= now s)%Q /\ (ev_seq e0 < next_seq s)%nat
  /\ Forall (key_lt e0) (queue s).

End WithAction.

Arguments mkEvent {Action}.
Arguments ev_time {Action}.
Arguments ev_seq {Action}.
Arguments ev_action {Action}.
Arguments mk {Action}.
Arguments now {Action}.
Arguments next_seq {Action}.
Arguments queue {Action}.
Arguments stop_time {Action}.
Arguments empty {Action}.
Arguments insert {Action}.
Arguments Schedule {Action}.
Arguments Cancel {Action}.
Arguments Stop {Action}.
Arguments Destroy {Action}.
Arguments Cmd_schedule {Action}.
Arguments Cmd_cancel {Action}.
Arguments exec {Action}.
Arguments beyond_stop {Action}.
Arguments Run {Action}.
Arguments key_lt {Action}.
Arguments wf {Action}.
Arguments causal {Action}.
Arguments harmless {Action}.
Arguments precedes {Action}.

End Simulator.

(** ** Random variables *)

Module UniformRandomVariable.

Record t : Type := mk { m_stream : Z }.

(** Modelled from the spec: ns3::UniformRandomVariable is not under src/.
    [SetStream (stream)] fixes the stream the values are drawn from. *)
Definition SetStream (stream : Z) (_ : t) : t := mk stream.

Section Draw.
(** The generator: the raw draw of a stream under a seed. *)
Variable RandU01 : Z -> Z -> Q.

(** Modelled from the spec: ns3::UniformRandomVariable is not under
    src/.  Per the spec the value is drawn uniformly between the two
    bounds; it is the raw draw of the stream, scaled to the bounds. *)
Definition GetValue (seed : Z) (v : t) (min max : Q) : Q :=
  (min + RandU01 seed (m_stream v) * (max - min))%Q.
End Draw.

End UniformRandomVariable.

(** ** Command line *)

(** A command-line argument [--name=value], split and lexed. *)
Inductive Value : Type :=
| V_bool (b : bool)
| V_uint (n : Z)
| V_double (d : Q)
| V_text (s : string).

Record Arg : Type := mkArg { arg_name : string; arg_value : Value }.

Module CommandLine.

Section WithObject.
(** The object whose fields the values are bound to. *)
Variable Obj : Type.

Record Item : Type := mkItem {
  item_name : string;
  item_help : string;
  item_set : Value -> Obj -> option Obj
}.

Definition t : Type := list Item.

(** Modelled from the spec: ns3::CommandLine is not under src/.  [AddValue]
    binds a flag to a field; here on a [uint32_t], which takes an unsigned
    number in its range. *)
Definition AddValue_uint32 (name help : string) (set : Z -> Obj -> Obj) (cmd : t) : t :=
  cmd ++ [mkItem name help
            (fun v o => match v with
                        | V_uint n => if (0 <=? n) && (n <=? uint32_max)
                                      then Some (set n o) else None
                        | _ => None
                        end)].

(** Modelled from the spec: ns3::CommandLine is not under src/.  [AddValue]
    on a [double], which takes a number. *)
Definition AddValue_double (name help : string) (set : Q -> Obj -> Obj) (cmd : t) : t :=
  cmd ++ [mkItem name help
            (fun v o => match v with
                        | V_double d => Some (set d o)
                        | V_uint n => Some (set (inject_Z n) o)
                        | _ => None
                        end)].

(** Modelled from the spec: ns3::CommandLine is not under src/.  [AddValue]
    on a [bool]. *)
Definition AddValue_bool (name help : string) (set : bool -> Obj -> Obj) (cmd : t) : t :=
  cmd ++ [mkItem name help
            (fun v o => match v with
                        | V_bool b => Some (set b o)
                        | _ => None
                        end)].

(** Modelled from the spec: ns3::CommandLine is not under src/.  The value
    registered under a name. *)
Definition lookup (cmd : t) (name : string) : option Item :=
  find (fun it => String.eqb (item_name it) name) cmd.

(** Modelled from the spec: ns3::CommandLine is not under src/.  Per
    the spec a flag sets the value registered under its name, and an
    invalid flag (an unknown name, or a value the bound field cannot
    hold) is fatal: [None] stands for the process ending inside
    [Parse]. *)
Fixpoint Parse (cmd : t) (argv : list Arg) (o : Obj) : option Obj :=
  match argv with
  | [] => Some o
  | a :: rest =>
      match lookup cmd (arg_name a) with
      | None => None
      | Some it =>
          match item_set it (arg_value a) o with
          | None => None
          | Some o' => Parse cmd rest o'
          end
      end
  end.
End WithObject.

Arguments mkItem {Obj}.
Arguments item_name {Obj}.
Arguments item_set {Obj}.
Arguments AddValue_uint32 {Obj}.
Arguments AddValue_double {Obj}.
Arguments AddValue_bool {Obj}.
Arguments lookup {Obj}.
Arguments Parse {Obj}.

End CommandLine.

(** ** The objects of a simulation *)

(** A [Ptr<Node>], [Ptr<NetDevice>] or [Ptr<Socket>]: the index of the
    object in its store. *)
Definition Ptr : Type := nat.

Record Node : Type := mkNode {
  node_id : Z;                      (* Node::GetId *)
  node_mobility : option Vector;    (* the aggregated mobility model *)
  node_routing : option string      (* the routing protocol of its stack *)
}.

Record NetDevice : Type := mkNetDevice {
  dev_node : Ptr;
  dev_mac : string;
  dev_channel : nat
}.

(** One entry of an [Ipv4InterfaceContainer]. *)
Record Ipv4Interface : Type := mkInterface {
  if_node : Ptr;
  if_device : Ptr;
  if_address : Ipv4Address
}.

Inductive Callback : Type :=
| Cb_ReceiveRoutingPacket
| Cb_OnOffTrace.

Record Packet : Type := mkPacket { pkt_size : Z }.

Record Socket : Type := mkSocket {
  sock_node : Ptr;
  sock_tid : string;
  sock_local : option InetSocketAddress;   (* Bind *)
  sock_recv : option Callback;             (* SetRecvCallback *)
  sock_rx : list (Packet * Address)        (* received, not yet read *)
}.

Record OnOffApplication : Type := mkOnOff {
  app_node : Ptr;
  app_protocol : string;
  app_remote : Address;
  app_on : string;
  app_off : string;
  app_start : option Time;
  app_stop : option Time
}.

(** The events the installation leaves with the scheduler, next to those of
    the library at run time. *)
Inductive Action : Type :=
| PrintRoutingTable (node : Ptr) (stream : string)
| LibraryEvent (tag : nat).

(** What a call of [Simulator::Run] starts from. *)
Record RunStart : Type := mkRunStart {
  run_sim : Simulator.t Action;
  run_sockets : list Socket;
  run_apps : list OnOffApplication
}.

(** The script object, [class AodvExample]. *)
Record AodvExample : Type := mkAodvExample {
  size : Z;
  step : Q;
  totalTime : Q;
  pcap : bool;
  printRoutes : bool;
  nodes : list Ptr;                  (* NodeContainer *)
  devices : list Ptr;                (* NetDeviceContainer *)
  interfaces : list Ipv4Interface    (* Ipv4InterfaceContainer *)
}.

(** The script object and the state of the library. *)
Record World : Type := mkWorld {
  this : AodvExample;
  w_seed : Z;                               (* SeedManager *)
  w_NodeList : list Node;                   (* NodeList *)
  w_Names : list (Text * Ptr);              (* Names *)
  w_devices : list NetDevice;
  w_pcap : list string;                     (* capture prefixes enabled *)
  w_files : list string;                    (* output files opened *)
  w_sockets : list Socket;
  w_apps : list OnOffApplication;
  w_connect : list (Text * Callback);       (* Config::Connect *)
  w_sim : Simulator.t Action;
  w_runs : list RunStart;                   (* the calls of Simulator::Run *)
  w_cout : Text;                            (* std::cout *)
  w_clog : list Text                        (* std::clog, line by line *)
}.

(** *** Field updates *)

Definition set_size (v : Z) (a : AodvExample) : AodvExample :=
  mkAodvExample v (step a) (totalTime a) (pcap a) (printRoutes a)
                (nodes a) (devices a) (interfaces a).
Definition set_step (v : Q) (a : AodvExample) : AodvExample :=
  mkAodvExample (size a) v (totalTime a) (pcap a) (printRoutes a)
                (nodes a) (devices a) (interfaces a).
Definition set_totalTime (v : Q) (a : AodvExample) : AodvExample :=
  mkAodvExample (size a) (step a) v (pcap a) (printRoutes a)
                (nodes a) (devices a) (interfaces a).
Definition set_pcap (v : bool) (a : AodvExample) : AodvExample :=
  mkAodvExample (size a) (step a) (totalTime a) v (printRoutes a)
                (nodes a) (devices a) (interfaces a).
Definition set_printRoutes (v : bool) (a : AodvExample) : AodvExample :=
  mkAodvExample (size a) (step a) (totalTime a) (pcap a) v
                (nodes a) (devices a) (interfaces a).
Definition set_nodes (v : list Ptr) (a : AodvExample) : AodvExample :=
  mkAodvExample (size a) (step a) (totalTime a) (pcap a) (printRoutes a)
                v (devices a) (interfaces a).
Definition set_devices (v : list Ptr) (a : AodvExample) : AodvExample :=
  mkAodvExample (size a) (step a) (totalTime a) (pcap a) (printRoutes a)
                (nodes a) v (interfaces a).
Definition set_interfaces (v : list Ipv4Interface) (a : AodvExample) : AodvExample :=
  mkAodvExample (size a) (step a) (totalTime a) (pcap a) (printRoutes a)
                (nodes a) (devices a) v.

Definition set_this (v : AodvExample) (w : World) : World :=
  mkWorld v (w_seed w) (w_NodeList w) (w_Names w) (w_devices w) (w_pcap w)
          (w_files w) (w_sockets w) (w_apps w) (w_connect w) (w_sim w)
          (w_runs w) (w_cout w) (w_clog w).
Definition set_seed (v : Z) (w : World) : World :=
  mkWorld (this w) v (w_NodeList w) (w_Names w) (w_devices w) (w_pcap w)
          (w_files w) (w_sockets w) (w_apps w) (w_connect w) (w_sim w)
          (w_runs w) (w_cout w) (w_clog w).
Definition set_NodeList (v : list Node) (w : World) : World :=
  mkWorld (this w) (w_seed w) v (w_Names w) (w_devices w) (w_pcap w)
          (w_files w) (w_sockets w) (w_apps w) (w_connect w) (w_sim w)
          (w_runs w) (w_cout w) (w_clog w).
Definition set_Names (v : list (Text * Ptr)) (w : World) : World :=
  mkWorld (this w) (w_seed w) (w_NodeList w) v (w_devices w) (w_pcap w)
          (w_files w) (w_sockets w) (w_apps w) (w_connect w) (w_sim w)
          (w_runs w) (w_cout w) (w_clog w).
Definition set_w_devices (v : list NetDevice) (w : World) : World :=
  mkWorld (this w) (w_seed w) (w_NodeList w) (w_Names w) v (w_pcap w)
          (w_files w) (w_sockets w) (w_apps w) (w_connect w) (w_sim w)
          (w_runs w) (w_cout w) (w_clog w).
Definition set_w_pcap (v : list string) (w : World) : World :=
  mkWorld (this w) (w_seed w) (w_NodeList w) (w_Names w) (w_devices w) v
          (w_files w) (w_sockets w) (w_apps w) (w_connect w) (w_sim w)
          (w_runs w) (w_cout w) (w_clog w).
Definition set_files (v : list string) (w : World) : World :=
  mkWorld (this w) (w_seed w) (w_NodeList w) (w_Names w) (w_devices w) (w_pcap w)
          v (w_sockets w) (w_apps w) (w_connect w) (w_sim w)
          (w_runs w) (w_cout w) (w_clog w).
Definition set_sockets (v : list Socket) (w : World) : World :=
  mkWorld (this w) (w_seed w) (w_NodeList w) (w_Names w) (w_devices w) (w_pcap w)
          (w_files w) v (w_apps w) (w_connect w) (w_sim w)
          (w_runs w) (w_cout w) (w_clog w).
Definition set_apps (v : list OnOffApplication) (w : World) : World :=
  mkWorld (this w) (w_seed w) (w_NodeList w) (w_Names w) (w_devices w) (w_pcap w)
          (w_files w) (w_sockets w) v (w_connect w) (w_sim w)
          (w_runs w) (w_cout w) (w_clog w).
Definition set_connect (v : list (Text * Callback)) (w : World) : World :=
  mkWorld (this w) (w_seed w) (w_NodeList w) (w_Names w) (w_devices w) (w_pcap w)
          (w_files w) (w_sockets w) (w_apps w) v (w_sim w)
          (w_runs w) (w_cout w) (w_clog w).
Definition set_sim (v : Simulator.t Action) (w : World) : World :=
  mkWorld (this w) (w_seed w) (w_NodeList w) (w_Names w) (w_devices w) (w_pcap w)
          (w_files w) (w_sockets w) (w_apps w) (w_connect w) v
          (w_runs w) (w_cout w) (w_clog w).
Definition set_runs (v : list RunStart) (w : World) : World :=
  mkWorld (this w) (w_seed w) (w_NodeList w) (w_Names w) (w_devices w) (w_pcap w)
          (w_files w) (w_sockets w) (w_apps w) (w_connect w) (w_sim w)
          v (w_cout w) (w_clog w).
Definition set_cout (v : Text) (w : World) : World :=
  mkWorld (this w) (w_seed w) (w_NodeList w) (w_Names w) (w_devices w) (w_pcap w)
          (w_files w) (w_sockets w) (w_apps w) (w_connect w) (w_sim w)
          (w_runs w) v (w_clog w).
Definition set_clog (v : list Text) (w : World) : World :=
  mkWorld (this w) (w_seed w) (w_NodeList w) (w_Names w) (w_devices w) (w_pcap w)
          (w_files w) (w_sockets w) (w_apps w) (w_connect w) (w_sim w)
          (w_runs w) (w_cout w) v.

(** The object at index [n] of a store replaced by its image under [f]. *)
Fixpoint update_nth {A : Type} (n : nat) (f : A -> A) (l : list A) : list A :=
  match l, n with
  | [], _ => []
  | x :: r, O => f x :: r
  | x :: r, S k => x :: update_nth k f r
  end.

(** ** Running the script: state and abnormal ends *)

Inductive Abort : Type :=
| ParseExit                    (* the process ended inside CommandLine::Parse *)
| FatalError (msg : string)    (* NS_FATAL_ERROR *)
| OutOfRange                   (* a container indexed outside its bounds *)
| AddressOverflow.             (* the address pool is exhausted *)

Inductive Outcome (A : Type) : Type :=
| Done (a : A) (w : World)
| Aborted (e : Abort) (w : World).

Arguments Done {A}.
Arguments Aborted {A}.

Definition M (A : Type) : Type := World -> Outcome A.

Definition ret {A : Type} (a : A) : M A := fun w => Done a w.

Definition bind {A B : Type} (c : M A) (k : A -> M B) : M B :=
  fun w => match c w with
           | Done a w' => k a w'
           | Aborted e w' => Aborted e w'
           end.

Definition abort {A : Type} (e : Abort) : M A := fun w => Aborted e w.
Definition gets {A : Type} (f : World -> A) : M A := fun w => Done (f w) w.
Definition modify (f : World -> World) : M unit := fun w => Done tt (f w).

Declare Scope script_scope.
Delimit Scope script_scope with script.
Notation "x <- c ;; k" := (bind c (fun x => k))
  (at level 61, c at next level, right associativity) : script_scope.
Notation "c ;; k" := (bind c (fun _ => k))
  (at level 61, right associativity) : script_scope.
Open Scope script_scope.

(** The world an outcome ends in. *)
Definition world_of {A : Type} (o : Outcome A) : World :=
  match o with Done _ w => w | Aborted _ w => w end.

(** [for (uint32_t i = first; ...; ++i)], [count] rounds. *)
Fixpoint for_range (first : Z) (count : nat) (body : Z -> M unit) : M unit :=
  match count with
  | O => ret tt
  | S c => body first ;; for_range (first + 1) c body
  end.

(** [for (uint32_t i = 0; i < n; ++i)]. *)
Definition for_upto (n : Z) (body : Z -> M unit) : M unit :=
  for_range 0 (Z.to_nat n) body.

(** ** The library calls of the script *)

Open Scope string_scope.
Open Scope list_scope.
Open Scope Z_scope.
Open Scope script_scope.

(** [std::cout << ...]. *)
Definition cout (t : Text) : M unit :=
  modify (fun w => set_cout (w_cout w ++ t) w).

(** Modelled from the spec: the macro NS_LOG_UNCOND is not under src/.  Per
    the spec a trace line is emitted at once, without buffering: one line on
    [std::clog]. *)
Definition NS_LOG_UNCOND (msg : Text) : M unit :=
  modify (fun w => set_clog (w_clog w ++ [msg]) w).

(** Modelled from the spec: the macro NS_FATAL_ERROR is not under src/: the
    fatal abort of the spec, which ends the process. *)
Definition NS_FATAL_ERROR {A : Type} (msg : string) : M A :=
  abort (FatalError msg).

(** Modelled from the spec: ns3::SeedManager is not under src/: the fixed
    seed of the random number generator. *)
Definition SeedManager_SetSeed (seed : Z) : M unit := modify (set_seed seed).

(** Modelled from the spec: ns3::NodeContainer is not under src/.
    [nodes.Create (n)]: [n] new nodes, entered in the [NodeList], which
    numbers them, and in the container. *)
Definition nodes_Create (n : Z) : M unit :=
  modify (fun w =>
    let fresh := seq (List.length (w_NodeList w)) (Z.to_nat n) in
    set_this (set_nodes (nodes (this w) ++ fresh) (this w))
      (set_NodeList
         (w_NodeList w ++ map (fun p => mkNode (Z.of_nat p) None None) fresh) w)).

(** Modelled from the spec: ns3::NodeContainer is not under src/.
    [nodes.GetN ()]. *)
Definition nodes_GetN : M Z :=
  gets (fun w => Z.of_nat (List.length (nodes (this w)))).

(** Modelled from the spec: ns3::NodeContainer is not under src/.
    [nodes.Get (i)]. *)
Definition nodes_Get (i : Z) : M Ptr :=
  fun w => match nth_error (nodes (this w)) (Z.to_nat i) with
           | Some p => Done p w
           | None => Aborted OutOfRange w
           end.

(** Modelled from the spec: ns3::Ipv4InterfaceContainer is not under
    src/.  [interfaces.GetAddress (i)]. *)
Definition interfaces_GetAddress (i : Z) : M Ipv4Address :=
  fun w => match nth_error (interfaces (this w)) (Z.to_nat i) with
           | Some e => Done (if_address e) w
           | None => Aborted OutOfRange w
           end.

(** Modelled from the spec: ns3::Names is not under src/.  [Names::Add (name,
    node)]: the node receives the name. *)
Definition Names_Add (name : Text) (node : Ptr) : M unit :=
  modify (fun w => set_Names (w_Names w ++ [(name, node)]) w).

Definition set_position (pos : Vector) (n : Node) : Node :=
  mkNode (node_id n) (Some pos) (node_routing n).

(** Modelled from the spec: ns3::MobilityHelper is not under src/.
    [MobilityHelper::Install] with a constant-position model: every node of
    the container, in order, takes the next position of the allocator. *)
Fixpoint place (alloc : GridPositionAllocator.t) (c : list Ptr) (l : list Node)
  : list Node :=
  match c with
  | [] => l
  | p :: r =>
      let (pos, alloc') := GridPositionAllocator.GetNext alloc in
      place alloc' r (update_nth p (set_position pos) l)
  end.

(** Modelled from the spec: ns3::MobilityHelper is not under src/; see
    [place]. *)
Definition MobilityHelper_Install (alloc : GridPositionAllocator.t) : M unit :=
  modify (fun w => set_NodeList (place alloc (nodes (this w)) (w_NodeList w)) w).

(** Modelled from the spec: ns3::WifiHelper is not under src/.  Per the
    spec one radio device per node of the container is attached to a single
    shared channel. *)
Definition WifiHelper_Install (mac : string) (channel : nat) : M (list Ptr) :=
  fun w =>
    let c := nodes (this w) in
    Done (seq (List.length (w_devices w)) (List.length c))
         (set_w_devices (w_devices w ++ map (fun p => mkNetDevice p mac channel) c) w).

(** Modelled from the spec: [YansWifiPhyHelper::EnablePcapAll] is not under
    src/: capture is switched on under the prefix. *)
Definition EnablePcapAll (prefix : string) : M unit :=
  modify (fun w => set_w_pcap (w_pcap w ++ [prefix]) w).

Definition set_routing (r : string) (n : Node) : Node :=
  mkNode (node_id n) (node_mobility n) (Some r).

(** Modelled from the spec: ns3::InternetStackHelper is not under
    src/.  Per the spec every node of the container gets an instance of the
    routing protocol that was set. *)
Definition InternetStackHelper_Install (routing : string) : M unit :=
  modify (fun w =>
    set_NodeList
      (fold_left (fun l p => update_nth p (set_routing routing) l)
                 (nodes (this w)) (w_NodeList w)) w).

(** Modelled from the spec: [Ipv4AddressHelper::Assign] is not under
    src/.  Per the spec every device of the container, in order, takes the
    next address of the pool, and an exhausted pool is fatal. *)
Fixpoint Ipv4AddressHelper_Assign (h : Ipv4AddressHelper.t) (c : list Ptr)
  : M (list Ipv4Interface) :=
  match c with
  | [] => ret []
  | d :: r =>
      fun w =>
        match nth_error (w_devices w) d with
        | None => Aborted OutOfRange w
        | Some dev =>
            match Ipv4AddressHelper.NewAddress h with
            | None => Aborted AddressOverflow w
            | Some (a, h') =>
                (rest <- Ipv4AddressHelper_Assign h' r ;;
                 ret (mkInterface (dev_node dev) d a :: rest)) w
            end
        end
  end.

(** Modelled from the spec: ns3::OutputStreamWrapper is not under
    src/.  [Create<OutputStreamWrapper> (name, std::ios::out)] opens the
    file. *)
Definition Create_OutputStreamWrapper (name : string) : M string :=
  fun w => Done name (set_files (w_files w ++ [name]) w).

(** Modelled from the spec: ns3::AodvHelper::PrintRoutingTableAllAt is not
    under src/.  Per the spec a dump holds one section per node: for every
    node of the [NodeList] one event at the given time writes the node's
    routing table to the stream. *)
Definition PrintRoutingTableAllAt (t : Time) (stream : string) : M unit :=
  modify (fun w =>
    set_sim
      (fold_left (fun s p => Simulator.Schedule t (PrintRoutingTable p stream) s)
                 (seq 0 (List.length (w_NodeList w))) (w_sim w)) w).

(** Modelled from the spec: ns3::Socket is not under src/.
    [Socket::CreateSocket (node, tid)]: a new socket on the node. *)
Definition Socket_CreateSocket (node : Ptr) (tid : string) : M Ptr :=
  fun w => Done (List.length (w_sockets w))
                (set_sockets (w_sockets w ++ [mkSocket node tid None None []]) w).

(** Modelled from the spec: ns3::Socket is not under src/.  [Bind (local)]. *)
Definition Socket_Bind (s : Ptr) (local : InetSocketAddress) : M unit :=
  modify (fun w =>
    set_sockets
      (update_nth s (fun k => mkSocket (sock_node k) (sock_tid k) (Some local)
                                       (sock_recv k) (sock_rx k))
                  (w_sockets w)) w).

(** Modelled from the spec: ns3::Socket is not under src/.
    [SetRecvCallback (callback)]. *)
Definition Socket_SetRecvCallback (s : Ptr) (cb : Callback) : M unit :=
  modify (fun w =>
    set_sockets
      (update_nth s (fun k => mkSocket (sock_node k) (sock_tid k) (sock_local k)
                                       (Some cb) (sock_rx k))
                  (w_sockets w)) w).

(** Modelled from the spec: ns3::Socket is not under src/.
    [Socket::RecvFrom]: the oldest unread packet with its sender, or null. *)
Definition Socket_RecvFrom (s : Ptr) : M (option (Packet * Address)) :=
  fun w =>
    match nth_error (w_sockets w) s with
    | None => Aborted OutOfRange w
    | Some k =>
        match sock_rx k with
        | [] => Done None w
        | x :: rest =>
            Done (Some x)
                 (set_sockets
                    (update_nth s (fun k => mkSocket (sock_node k) (sock_tid k)
                                                     (sock_local k) (sock_recv k) rest)
                                (w_sockets w)) w)
        end
    end.

(** Modelled from the spec: ns3::Socket and ns3::Node are not under
    src/.  [socket->GetNode ()->GetId ()]. *)
Definition Socket_GetNode_GetId (s : Ptr) : M Z :=
  fun w =>
    match nth_error (w_sockets w) s with
    | None => Aborted OutOfRange w
    | Some k =>
        match nth_error (w_NodeList w) (sock_node k) with
        | None => Aborted OutOfRange w
        | Some n => Done (node_id n) w
        end
    end.

(** Modelled from the spec: ns3::OnOffHelper is not under src/.  Per the spec a
    flow has a destination address, an on-duration and an off-duration; the
    helper holds them for the applications it installs. *)
Record OnOffHelper : Type := mkOnOffHelper {
  oh_protocol : string;
  oh_remote : Address;
  oh_on : string;
  oh_off : string
}.

Inductive AttributeValue : Type :=
| StringValue (s : string)
| AddressValue (a : Address).

(** Modelled from the spec: ns3::OnOffHelper is not under src/.  The helper
    as constructed from a protocol and a destination. *)
Definition OnOffHelper_new (protocol : string) (address : Address) : OnOffHelper :=
  mkOnOffHelper protocol address EmptyString EmptyString.

(** Modelled from the spec: ns3::OnOffHelper is not under src/.
    [SetAttribute (name, value)] for the attributes the script sets. *)
Definition OnOffHelper_SetAttribute (name : string) (v : AttributeValue)
  (h : OnOffHelper) : OnOffHelper :=
  match v with
  | StringValue s =>
      if String.eqb name "OnTime"
      then mkOnOffHelper (oh_protocol h) (oh_remote h) s (oh_off h)
      else if String.eqb name "OffTime"
      then mkOnOffHelper (oh_protocol h) (oh_remote h) (oh_on h) s
      else h
  | AddressValue a =>
      if String.eqb name "Remote"
      then mkOnOffHelper (oh_protocol h) a (oh_on h) (oh_off h)
      else h
  end.

(** Modelled from the spec: ns3::OnOffHelper is not under src/.
    [OnOffHelper::Install (node)]: one application on the node, not yet given
    a start or a stop time. *)
Definition OnOffHelper_Install (h : OnOffHelper) (node : Ptr) : M (list Ptr) :=
  fun w =>
    Done [List.length (w_apps w)]
         (set_apps (w_apps w ++ [mkOnOff node (oh_protocol h) (oh_remote h)
                                         (oh_on h) (oh_off h) None None]) w).

(** Modelled from the spec: ns3::ApplicationContainer is not under
    src/.  [Start (time)]: the start time of every application of the
    container. *)
Definition ApplicationContainer_Start (c : list Ptr) (t : Time) : M unit :=
  modify (fun w =>
    set_apps
      (fold_left (fun l p =>
         update_nth p (fun a => mkOnOff (app_node a) (app_protocol a) (app_remote a)
                                        (app_on a) (app_off a) (Some t) (app_stop a)) l)
         c (w_apps w)) w).

(** Modelled from the spec: ns3::ApplicationContainer is not under
    src/.  [Stop (time)]: the stop time of every application of the
    container. *)
Definition ApplicationContainer_Stop (c : list Ptr) (t : Time) : M unit :=
  modify (fun w =>
    set_apps
      (fold_left (fun l p =>
         update_nth p (fun a => mkOnOff (app_node a) (app_protocol a) (app_remote a)
                                        (app_on a) (app_off a) (app_start a) (Some t)) l)
         c (w_apps w)) w).

(** Modelled from the spec: ns3::Config is not under src/.  [Config::Connect
    (path, callback)]: the callback subscribes to the trace source. *)
Definition Config_Connect (path : Text) (cb : Callback) : M unit :=
  modify (fun w => set_connect (w_connect w ++ [(path, cb)]) w).

(** Modelled from the spec: ns3::Simulator is not under src/.
    [Simulator::Now ()]. *)
Definition Simulator_Now : M Time := gets (fun w => Simulator.now (w_sim w)).

(** Modelled from the spec: ns3::Simulator is not under src/.
    [Simulator::Stop (delay)] on the scheduler of the world. *)
Definition Simulator_Stop (delay : Time) : M unit :=
  modify (fun w => set_sim (Simulator.Stop delay (w_sim w)) w).

(** Modelled from the spec: ns3::Simulator is not under src/.
    [Simulator::Run ()]: the event loop is entered with the scheduler, the
    sockets and the applications as they are, and the world records that; what
    the loop dispatches from there is [Simulator.Run]. *)
Definition Simulator_Run : M unit :=
  modify (fun w =>
    set_runs (w_runs w ++ [mkRunStart (w_sim w) (w_sockets w) (w_apps w)]) w).

(** Modelled from the spec: ns3::Simulator is not under src/.
    [Simulator::Destroy ()] on the scheduler of the world. *)
Definition Simulator_Destroy : M unit :=
  modify (fun w => set_sim (Simulator.Destroy (w_sim w)) w).

(** ** The script

    The member functions of [AodvExample] and [main], in the order of the
    source.  [SendData] is left out: its only call is commented out in the
    source, so nothing of the program reaches it. *)

(** [AodvExample::AodvExample ()]. *)
Definition AodvExample_new : AodvExample :=
  mkAodvExample 10 100 100 false true [] [] [].

(** The world [main] starts in: nothing created yet. *)
Definition boot (a : AodvExample) : World :=
  mkWorld a 1 [] [] [] [] [] [] [] [] Simulator.empty [] [] [].

(** [AodvExample::Configure]. *)
Definition Configure (argv : list Arg) : M bool :=
  SeedManager_SetSeed 12345 ;;
  let cmd : CommandLine.t AodvExample := [] in
  let cmd := CommandLine.AddValue_bool "pcap" "Write PCAP traces." set_pcap cmd in
  let cmd := CommandLine.AddValue_bool "printRoutes" "Print routing table dumps."
               set_printRoutes cmd in
  let cmd := CommandLine.AddValue_uint32 "size" "Number of nodes." set_size cmd in
  let cmd := CommandLine.AddValue_double "time" "Simulation time, s." set_totalTime cmd in
  let cmd := CommandLine.AddValue_double "step" "Grid step, m" set_step cmd in
  (fun w => match CommandLine.Parse cmd argv (this w) with
            | Some a => Done tt (set_this a w)
            | None => Aborted ParseExit w
            end) ;;
  ret true.

(** [AodvExample::Report]. *)
Definition Report : M unit := ret tt.

(** [AodvExample::CreateNodes]. *)
Definition CreateNodes : M unit :=
  size_ <- gets (fun w => size (this w)) ;;
  step_ <- gets (fun w => step (this w)) ;;
  cout [T_str "Creating "; T_uint size_; T_str " nodes "; T_double step_;
        T_str (" m apart." ++ endl)%string] ;;
  nodes_Create size_ ;;
  (* Name nodes *)
  for_upto size_ (fun i =>
    node <- nodes_Get i ;;
    Names_Add [T_str "node-"; T_uint i] node) ;;
  (* Create static grid *)
  let mobility :=
    GridPositionAllocator.mk 0 0 step_ 0 size_ GridPositionAllocator.RowFirst 0 in
  MobilityHelper_Install mobility.

(** [AodvExample::CreateDevices]. *)
Definition CreateDevices : M unit :=
  d <- WifiHelper_Install "ns3::AdhocWifiMac" 0 ;;
  modify (fun w => set_this (set_devices d (this w)) w) ;;
  pcap_ <- gets (fun w => pcap (this w)) ;;
  if pcap_ then EnablePcapAll "aodv" else ret tt.

(** [AodvExample::InstallInternetStack]. *)
Definition InstallInternetStack : M unit :=
  InternetStackHelper_Install "aodv" ;;
  let address := Ipv4AddressHelper.SetBase (ipv4 10 0 0 0) (ipv4 255 0 0 0) in
  devices_ <- gets (fun w => devices (this w)) ;;
  i <- Ipv4AddressHelper_Assign address devices_ ;;
  modify (fun w => set_this (set_interfaces i (this w)) w) ;;
  printRoutes_ <- gets (fun w => printRoutes (this w)) ;;
  if printRoutes_
  then routingStream <- Create_OutputStreamWrapper "aodv.routes" ;;
       PrintRoutingTableAllAt (Seconds 8) routingStream
  else ret tt.

(** [AodvExample::OnOffTrace]. *)
Definition OnOffTrace (context : string) (packet : Packet) (source dest : Address)
  : M unit :=
  now_ <- Simulator_Now ;;
  let oss := [T_double now_; T_str " source "] in
  let oss :=
    if IsMatchingType source
    then let addr := ConvertFrom source in
         oss ++ [T_ipv4 (GetIpv4 addr); T_str " send to dest "]
    else oss in
  let oss :=
    if IsMatchingType dest
    then let addr := ConvertFrom dest in
         oss ++ [T_ipv4 (GetIpv4 addr)]
    else oss in
  NS_LOG_UNCOND oss.

(** [PrintReceivedRoutingPacket]. *)
Definition PrintReceivedRoutingPacket (socket : Ptr) (packet : Packet)
  (srcAddress : Address) : M Text :=
  now_ <- Simulator_Now ;;
  id <- Socket_GetNode_GetId socket ;;
  let oss := [T_double now_; T_str " "; T_uint id] in
  if IsMatchingType srcAddress
  then let addr := ConvertFrom srcAddress in
       ret (oss ++ [T_str " received one packet from "; T_ipv4 (GetIpv4 addr)])
  else ret (oss ++ [T_str " received one packet!"]).

(** The loop of [ReceiveRoutingPacket], at most [rounds] times around. *)
Fixpoint ReceiveRoutingPacket_loop (rounds : nat) (socket : Ptr) : M unit :=
  match rounds with
  | O => ret tt
  | S k =>
      r <- Socket_RecvFrom socket ;;
      match r with
      | None => ret tt
      | Some (packet, srcAddress) =>
          line <- PrintReceivedRoutingPacket socket packet srcAddress ;;
          NS_LOG_UNCOND (T_str "AODV " :: line) ;;
          ReceiveRoutingPacket_loop k socket
      end
  end.

(** [AodvExample::ReceiveRoutingPacket]: the loop reads until the socket has
    nothing left, which takes one round per unread packet and one more. *)
Definition ReceiveRoutingPacket (socket : Ptr) : M unit :=
  fun w =>
    let unread := match nth_error (w_sockets w) socket with
                  | Some k => List.length (sock_rx k)
                  | None => O
                  end in
    ReceiveRoutingPacket_loop (S unread) socket w.

Section Script.

(** The random number generator: the raw draw, in [0, 1), of a stream
    under a seed. *)
Variable RandU01 : Z -> Z -> Q.

(** [AodvExample::InstallApplications]. *)
Definition InstallApplications : M unit :=
  let tid := "ns3::UdpSocketFactory" in
  let local := mkInet Ipv4_GetAny 80 in
  n <- nodes_GetN ;;
  for_upto n (fun i =>
    node <- nodes_Get i ;;
    recvSink <- Socket_CreateSocket node tid ;;
    Socket_Bind recvSink local ;;
    Socket_SetRecvCallback recvSink Cb_ReceiveRoutingPacket) ;;
  let onoff1 := OnOffHelper_new "ns3::UdpSocketFactory" Address_empty in
  let onoff1 := OnOffHelper_SetAttribute "OnTime"
                  (StringValue "ns3::ConstantRandomVariable[Constant=1.0]") onoff1 in
  let onoff1 := OnOffHelper_SetAttribute "OffTime"
                  (StringValue "ns3::ConstantRandomVariable[Constant=0.0]") onoff1 in
  let var := UniformRandomVariable.mk (-1) in
  let var := UniformRandomVariable.SetStream 2 var in
  size_ <- gets (fun w => size (this w)) ;;
  a <- interfaces_GetAddress (u32 (size_ - 1)) ;;
  let dest := mkInet a 80 in
  let onoff1 := OnOffHelper_SetAttribute "Remote"
                  (AddressValue (Inet_to_Address dest)) onoff1 in
  node0 <- nodes_Get 0 ;;
  temp <- OnOffHelper_Install onoff1 node0 ;;
  seed <- gets w_seed ;;
  ApplicationContainer_Start temp
    (Seconds (UniformRandomVariable.GetValue RandU01 seed var 1 2)) ;;
  ApplicationContainer_Stop temp (Seconds 10) ;;
  Config_Connect
    [T_str "/NodeList/*/ApplicationList/*/$ns3::OnOffApplication/TxWithAddresses"]
    Cb_OnOffTrace ;;
  totalTime_ <- gets (fun w => totalTime (this w)) ;;
  Simulator_Stop (Seconds totalTime_) ;;
  Simulator_Run ;;
  Simulator_Destroy.

(** [AodvExample::Run]. *)
Definition Run : M unit :=
  CreateNodes ;;
  CreateDevices ;;
  InstallInternetStack ;;
  InstallApplications ;;
  totalTime_ <- gets (fun w => totalTime (this w)) ;;
  cout [T_str "Starting simulation for "; T_double totalTime_;
        T_str (" s ..." ++ endl)%string] ;;
  Simulator_Stop (Seconds totalTime_) ;;
  Simulator_Run ;;
  Simulator_Destroy.

(** [main]: the exit code, or how the process ended before it. *)
Definition main (argv : list Arg) : Outcome Z :=
  (ok <- Configure argv ;;
   (if negb ok
    then NS_FATAL_ERROR "Configuration failed. Aborted."
    else ret tt) ;;
   Run ;;
   Report ;;
   ret 0) (boot AodvExample_new).

End Script.

(** * The worlds the phases of the script end in

    What the lemmas below show each phase of [Run] to leave, as a
    function of the parameters; and the sample inputs of the examples. *)

(** The world [Configure] leaves: the parameters set, nothing created. *)
Definition configured (sz : Z) (st tm : Q) (pc pr : bool) : World :=
  set_seed 12345 (boot (mkAodvExample sz st tm pc pr [] [] [])).

(** The allocator of [CreateNodes] after [k] positions. *)
Definition allocator (sz : Z) (st : Q) (k : nat) : GridPositionAllocator.t :=
  GridPositionAllocator.mk 0 0 st 0 sz GridPositionAllocator.RowFirst (Z.of_nat k).

(** Node [p] as [CreateNodes] leaves it. *)
Definition grid_node (sz : Z) (st : Q) (p : nat) : Node :=
  mkNode (Z.of_nat p)
         (Some (fst (GridPositionAllocator.GetNext (allocator sz st p)))) None.

(** The name [CreateNodes] gives node [p]. *)
Definition node_name (p : nat) : Text * Ptr :=
  ([T_str "node-"; T_uint (Z.of_nat p)], p).

(** The world after [CreateNodes]. *)
Definition created (sz : Z) (st tm : Q) (pc pr : bool) : World :=
  let n := Z.to_nat sz in
  mkWorld (mkAodvExample sz st tm pc pr (seq 0 n) [] []) 12345
          (map (grid_node sz st) (seq 0 n)) (map node_name (seq 0 n))
          [] [] [] [] [] [] Simulator.empty []
          [T_str "Creating "; T_uint sz; T_str " nodes "; T_double st;
           T_str (" m apart." ++ endl)%string] [].

(** The device [CreateDevices] attaches to node [p]. *)
Definition wifi_device (p : nat) : NetDevice := mkNetDevice p "ns3::AdhocWifiMac" 0.

(** The world after [CreateDevices]. *)
Definition equipped (sz : Z) (st tm : Q) (pc pr : bool) : World :=
  let n := Z.to_nat sz in
  let w := created sz st tm pc pr in
  set_w_pcap (if pc then ["aodv"] else [])
    (set_this (set_devices (seq 0 n) (this w))
       (set_w_devices (map wifi_device (seq 0 n)) w)).

(** The last host number of the pool of 10.0.0.0/255.0.0.0. *)
Definition pool_max : Z :=
  Ipv4AddressHelper.m_max (Ipv4AddressHelper.SetBase (ipv4 10 0 0 0) (ipv4 255 0 0 0)).

(** The interface of the [p]-th device. *)
Definition interface_of (p : nat) : Ipv4Interface :=
  mkInterface p p (Z.lor (ipv4 10 0 0 0) (Z.of_nat p + 1)).

(** The event that dumps the routing table of node [p]. *)
Definition dump_event (p : nat) : Simulator.Event Action :=
  Simulator.mkEvent (0 + Seconds 8)%Q p (PrintRoutingTable p "aodv.routes").

(** The scheduler with the dump events of [n] nodes, and nothing else. *)
Definition dump_queue (n : nat) : Simulator.t Action :=
  Simulator.mk 0%Q n (map dump_event (seq 0 n)) None.

(** The world after [InstallInternetStack]. *)
Definition networked (sz : Z) (st tm : Q) (pc pr : bool) : World :=
  let n := Z.to_nat sz in
  let w := equipped sz st tm pc pr in
  set_sim (if pr then dump_queue n else Simulator.empty)
    (set_files (if pr then ["aodv.routes"] else [])
       (set_this (set_interfaces (map interface_of (seq 0 n)) (this w))
          (set_NodeList
             (map (fun p => set_routing "aodv" (grid_node sz st p)) (seq 0 n)) w))).

(** The receive endpoint the script opens on node [p]. *)
Definition recv_sink (p : nat) : Socket :=
  mkSocket p "ns3::UdpSocketFactory" (Some (mkInet Ipv4_GetAny 80))
           (Some Cb_ReceiveRoutingPacket) [].

Section PhaseWorlds.
Variable RandU01 : Z -> Z -> Q.

(** The application [InstallApplications] leaves on node 0. *)
Definition flow (sz : Z) : OnOffApplication :=
  mkOnOff 0%nat "ns3::UdpSocketFactory"
          (Address_inet (if_address (interface_of (Z.to_nat (sz - 1)))) 80)
          "ns3::ConstantRandomVariable[Constant=1.0]"
          "ns3::ConstantRandomVariable[Constant=0.0]"
          (Some (Seconds (UniformRandomVariable.GetValue RandU01 12345
                            (UniformRandomVariable.mk 2) 1 2)))
          (Some (Seconds 10)).

(** The world after [InstallApplications]. *)
Definition installed (sz : Z) (st tm : Q) (pc pr : bool) : World :=
  let n := Z.to_nat sz in
  let w := networked sz st tm pc pr in
  let sinks := map recv_sink (seq 0 n) in
  set_sim Simulator.empty
    (set_runs [mkRunStart (Simulator.Stop (Seconds tm) (w_sim w)) sinks [flow sz]]
       (set_connect
          [([T_str "/NodeList/*/ApplicationList/*/$ns3::OnOffApplication/TxWithAddresses"],
            Cb_OnOffTrace)]
          (set_apps [flow sz] (set_sockets sinks w)))).

(** The world after [Run]. *)
Definition finished (sz : Z) (st tm : Q) (pc pr : bool) : World :=
  let w := installed sz st tm pc pr in
  set_runs (w_runs w ++ [mkRunStart (Simulator.Stop (Seconds tm) Simulator.empty)
                                    (w_sockets w) (w_apps w)])
    (set_cout (w_cout w ++ [T_str "Starting simulation for "; T_double tm;
                            T_str (" s ..." ++ endl)%string]) w).

End PhaseWorlds.

(** The values [Configure] registers with the command line. *)
Definition registered : CommandLine.t AodvExample :=
  CommandLine.AddValue_double "step" "Grid step, m" set_step
    (CommandLine.AddValue_double "time" "Simulation time, s." set_totalTime
       (CommandLine.AddValue_uint32 "size" "Number of nodes." set_size
          (CommandLine.AddValue_bool "printRoutes" "Print routing table dumps."
             set_printRoutes
             (CommandLine.AddValue_bool "pcap" "Write PCAP traces." set_pcap [])))).

(** The parameters a command line leaves, if it is valid. *)
Definition parsed (argv : list Arg) : option AodvExample :=
  CommandLine.Parse registered argv AodvExample_new.

(** A script object that has created nothing yet. *)
Definition pristine (a : AodvExample) : Prop :=
  nodes a = [] /\ devices a = [] /\ interfaces a = []
  /\ 0 <= size a <= uint32_max.

(** A generator whose every draw is one half. *)
Definition half_draw : Z -> Z -> Q := fun _ _ => (1 # 2)%Q.

(** The trace lines as the specification writes them. *)
Definition spec_transmit_line (t : Time) (src dst : Ipv4Address) : Text :=
  [T_double t; T_str " source "; T_ipv4 src; T_str " send to dest "; T_ipv4 dst].

(** The receive line of the specification, in its two forms. *)
Definition spec_receive_line (t : Time) (id : Z) (src : Address) : Text :=
  match src with
  | Address_inet ip _ =>
      [T_double t; T_str " "; T_uint id; T_str " received one packet from "; T_ipv4 ip]
  | _ => [T_double t; T_str " "; T_uint id; T_str " received one packet!"]
  end.

(** The socket with nothing left to read. *)
Definition drained (k : Socket) : Socket :=
  mkSocket (sock_node k) (sock_tid k) (sock_local k) (sock_recv k) [].

(** The world a run with four nodes ends in. *)
Definition four_nodes : World := world_of (main half_draw [mkArg "size" (V_uint 4)]).

(** A packet of 512 bytes sent by node 0, whose address is 10.0.0.1. *)
Definition packet_from_node0 : Packet * Address :=
  (mkPacket 512, Address_inet (ipv4 10 0 0 1) 49153).

(** [four_nodes] with that packet waiting at the socket of node 3. *)
Definition delivered : World :=
  set_sockets
    (update_nth 3%nat (fun k => mkSocket (sock_node k) (sock_tid k) (sock_local k)
                                     (sock_recv k) [packet_from_node0])
                (w_sockets four_nodes))
    four_nodes.

(** A handler under which every dump of a routing table is followed, one
    second later, by an event of the library. *)
Definition follow_up (a : Action) (t : Time) : list (Simulator.Command Action) :=
  match a with
  | PrintRoutingTable n _ => [Simulator.Cmd_schedule 1%Q (LibraryEvent n)]
  | LibraryEvent _ => []
  end.

(** The run with no flags, under the generator [half_draw]. *)
Definition default_run : World := world_of (main half_draw []).

(** The first event loop of the run with no flags. *)
Definition first_loop : RunStart :=
  hd (mkRunStart Simulator.empty [] []) (w_runs default_run).

(** A command line that asks for one node. *)
Definition one_node : list Arg := [mkArg "size" (V_uint 1)].

(** A command line that asks for no node. *)
Definition no_node : list Arg := [mkArg "size" (V_uint 0)].

(** A command line with a flag the script does not register. *)
Definition bad_flag : list Arg := [mkArg "bogus" (V_uint 1)].



(** The packets a socket holds unread. *)
Definition unread (socket : Ptr) (w : World) : nat :=
  match nth_error (w_sockets w) socket with
  | Some k => List.length (sock_rx k)
  | None => O
  end.


(** * Properties *)

(** ** The phases of [Run], symbolically *)

Lemma update_nth_app {A : Type} (f : A -> A) (pre : list A) (x : A) (r : list A) :
  update_nth (List.length pre) f (pre ++ x :: r) = pre ++ f x :: r.
Proof.
  induction pre as [|y pre IH]; simpl; [reflexivity|].
  now rewrite IH.
Qed.

Lemma nth_error_seq_0 (n i : nat) :
  (i < n)%nat -> nth_error (seq 0 n) i = Some i.
Proof.
  intros H. rewrite nth_error_nth' with (d := O) by now rewrite length_seq.
  now rewrite seq_nth.
Qed.

Lemma app_cons_assoc {A : Type} (l : list A) (x : A) (r : list A) :
  l ++ x :: r = (l ++ [x]) ++ r.
Proof. now rewrite <- app_assoc. Qed.

(** The naming loop of [CreateNodes]. *)
Lemma name_loop (count : nat) :
  forall (first : nat) (w : World),
    (forall i, (first <= i < first + count)%nat ->
               nth_error (nodes (this w)) i = Some i) ->
    for_range (Z.of_nat first) count
      (fun i => node <- nodes_Get i ;; Names_Add [T_str "node-"; T_uint i] node) w
    = Done tt (set_Names (w_Names w ++ map node_name (seq first count)) w).
Proof.
  induction count as [|c IH]; intros first w H.
  - simpl. rewrite app_nil_r. now destruct w.
  - simpl. unfold bind at 1. unfold bind at 1. unfold nodes_Get at 1.
    rewrite Nat2Z.id, H by lia.
    unfold Names_Add, modify.
    replace (Z.of_nat first + 1) with (Z.of_nat (S first)) by lia.
    rewrite IH.
    + simpl. unfold node_name at 2. now rewrite <- app_assoc.
    + intros i Hi. simpl. apply H. lia.
Qed.

Lemma GetNext_allocator (sz : Z) (st : Q) (k : nat) :
  Z.of_nat k < uint32_max ->
  snd (GridPositionAllocator.GetNext (allocator sz st k)) = allocator sz st (S k).
Proof.
  intros H. unfold GridPositionAllocator.GetNext, allocator. simpl.
  f_equal. unfold u32, uint32_max in *. rewrite Z.mod_small; lia.
Qed.

(** [MobilityHelper::Install] over nodes that were just created. *)
Lemma place_fresh (sz : Z) (st : Q) (m : nat) :
  forall (k : nat) (pre : list Node),
    List.length pre = k ->
    Z.of_nat (k + m) <= uint32_max ->
    place (allocator sz st k) (seq k m)
          (pre ++ map (fun p => mkNode (Z.of_nat p) None None) (seq k m))
    = pre ++ map (grid_node sz st) (seq k m).
Proof.
  induction m as [|m IH]; intros k pre Hk Hm; [reflexivity|].
  subst k. cbn [seq map place].
  set (k := List.length pre) in *.
  destruct (GridPositionAllocator.GetNext (allocator sz st k)) as [pos alloc'] eqn:E.
  assert (Ha : alloc' = allocator sz st (S k)).
  { rewrite <- GetNext_allocator by lia. now rewrite E. }
  assert (Hp : grid_node sz st k = mkNode (Z.of_nat k) (Some pos) None).
  { unfold grid_node. now rewrite E. }
  subst alloc'.
  match goal with
  | |- context [update_nth k ?f (pre ++ ?x :: ?r)] =>
      pose proof (update_nth_app f pre x r) as U; fold k in U; rewrite U; clear U
  end.
  cbn [set_position node_id node_routing].
  rewrite app_cons_assoc, (app_cons_assoc pre (grid_node sz st k)).
  rewrite Hp. apply IH.
  - rewrite length_app. simpl. unfold k. lia.
  - lia.
Qed.

Lemma CreateNodes_created (sz : Z) (st tm : Q) (pc pr : bool) :
  0 <= sz <= uint32_max ->
  CreateNodes (configured sz st tm pc pr) = Done tt (created sz st tm pc pr).
Proof.
  intros H. unfold CreateNodes.
  unfold bind at 1. unfold gets at 1. unfold bind at 1. unfold gets at 1.
  unfold bind at 1. unfold cout at 1. unfold modify at 1.
  unfold bind at 1. unfold nodes_Create at 1. unfold modify at 1.
  unfold bind at 1. unfold for_upto.
  change 0 with (Z.of_nat 0) at 1.
  cbn [configured boot set_seed this size step set_cout w_cout app set_this set_NodeList
       w_NodeList nodes set_nodes List.length w_seed w_Names w_devices w_pcap w_files
       w_sockets w_apps w_connect w_sim w_runs w_clog totalTime pcap printRoutes
       devices interfaces].
  rewrite name_loop.
  - pose proof (place_fresh sz st (Z.to_nat sz) 0 [] eq_refl ltac:(simpl; lia)) as P.
    cbn [app] in P. unfold allocator in P. cbn [Z.of_nat] in P.
    unfold MobilityHelper_Install, modify.
    cbn -[place seq map Z.to_nat]. rewrite P. reflexivity.
  - intros i Hi. cbn. apply nth_error_seq_0. lia.
Qed.

(** Projections of updated records, reduced. *)
Ltac fields :=
  cbn [this w_seed w_NodeList w_Names w_devices w_pcap w_files w_sockets w_apps
       w_connect w_sim w_runs w_cout w_clog
       size step totalTime pcap printRoutes nodes devices interfaces
       set_size set_step set_totalTime set_pcap set_printRoutes set_nodes
       set_devices set_interfaces
       set_this set_seed set_NodeList set_Names set_w_devices set_w_pcap set_files
       set_sockets set_apps set_connect set_sim set_runs set_cout set_clog].

Lemma CreateDevices_equipped (sz : Z) (st tm : Q) (pc pr : bool) :
  CreateDevices (created sz st tm pc pr) = Done tt (equipped sz st tm pc pr).
Proof.
  unfold CreateDevices, bind, WifiHelper_Install, modify, gets.
  cbn -[seq map Z.to_nat]. rewrite length_seq.
  destruct pc; reflexivity.
Qed.

Lemma stack_fresh (r : string) (g : nat -> Node) (m : nat) :
  forall (k : nat) (pre : list Node),
    List.length pre = k ->
    fold_left (fun l p => update_nth p (set_routing r) l) (seq k m)
              (pre ++ map g (seq k m))
    = pre ++ map (fun p => set_routing r (g p)) (seq k m).
Proof.
  induction m as [|m IH]; intros k pre Hk; [reflexivity|].
  subst k. cbn [seq map fold_left]. rewrite update_nth_app.
  rewrite app_cons_assoc, IH by (rewrite length_app; simpl; lia).
  now rewrite <- app_assoc.
Qed.

Lemma nth_error_map_seq {A : Type} (f : nat -> A) (n i : nat) :
  (i < n)%nat -> nth_error (map f (seq 0 n)) i = Some (f i).
Proof.
  intros H. rewrite nth_error_map, nth_error_seq_0 by assumption. reflexivity.
Qed.

(** [Assign] over the devices [k], ..., [k + m - 1] with the pool at host
    [k + 1]: it succeeds if the pool reaches that far, and is fatal if not. *)
Lemma Assign_seq (n : nat) (net mask mx : Z) (m : nat) :
  forall (k : nat) (w : World),
    w_devices w = map wifi_device (seq 0 n) ->
    (k + m <= n)%nat ->
    Z.of_nat k <= mx ->
    Ipv4AddressHelper_Assign (Ipv4AddressHelper.mk net mask (Z.of_nat k + 1) mx)
                             (seq k m) w
    = if Z.of_nat (k + m) <=? mx
      then Done (map (fun p => mkInterface p p (Z.lor net (Z.of_nat p + 1))) (seq k m)) w
      else Aborted AddressOverflow w.
Proof.
  induction m as [|m IH]; intros k w Hd Hk Hmx.
  - cbn [seq map Ipv4AddressHelper_Assign].
    replace (Z.of_nat (k + 0) <=? mx) with true by (symmetry; apply Z.leb_le; lia).
    reflexivity.
  - cbn [seq map Ipv4AddressHelper_Assign].
    rewrite Hd, nth_error_map_seq by lia.
    unfold Ipv4AddressHelper.NewAddress.
    cbn [Ipv4AddressHelper.m_address Ipv4AddressHelper.m_max
         Ipv4AddressHelper.m_network Ipv4AddressHelper.m_mask].
    destruct (Z.of_nat k + 1 <=? mx) eqn:E.
    + apply Z.leb_le in E. unfold bind.
      replace (Z.of_nat k + 1 + 1) with (Z.of_nat (S k) + 1) by lia.
      rewrite IH by (try assumption; lia).
      replace (S k + m)%nat with (k + S m)%nat by lia.
      destruct (Z.of_nat (k + S m) <=? mx); reflexivity.
    + apply Z.leb_gt in E.
      replace (Z.of_nat (k + S m) <=? mx) with false by (symmetry; apply Z.leb_gt; lia).
      reflexivity.
Qed.

Lemma insert_last {A : Type} (e : Simulator.Event A) (q : list (Simulator.Event A)) :
  Forall (fun x => Qle_bool (Simulator.ev_time x) (Simulator.ev_time e) = true) q ->
  Simulator.insert e q = q ++ [e].
Proof.
  induction 1 as [|x q Hx _ IH]; simpl; [reflexivity|].
  now rewrite Hx, IH.
Qed.

(** The dump events of [PrintRoutingTableAllAt (Seconds (8), ...)] on a
    scheduler that holds nothing else. *)
Lemma schedule_dumps (m : nat) :
  forall (k : nat),
    fold_left (fun s p => Simulator.Schedule (Seconds 8)
                            (PrintRoutingTable p "aodv.routes") s)
              (seq k m) (dump_queue k)
    = dump_queue (k + m).
Proof.
  induction m as [|m IH]; intros k.
  - simpl. now rewrite Nat.add_0_r.
  - cbn [seq fold_left].
    replace (Simulator.Schedule (Seconds 8) (PrintRoutingTable k "aodv.routes")
               (dump_queue k))
      with (dump_queue (S k)).
    + rewrite IH. f_equal. lia.
    + unfold Simulator.Schedule, dump_queue.
      cbn [Simulator.now Simulator.next_seq Simulator.queue Simulator.stop_time].
      rewrite insert_last.
      * rewrite seq_S, map_app. reflexivity.
      * apply Forall_forall. intros x Hx. apply in_map_iff in Hx.
        destruct Hx as [p [<- _]]. reflexivity.
Qed.

Lemma pool_max_eq : pool_max = 16777214.
Proof. reflexivity. Qed.

(** [InstallInternetStack] on the equipped topology: the pool of the subnet
    covers [pool_max] devices and no more. *)
Lemma InstallInternetStack_networked (sz : Z) (st tm : Q) (pc pr : bool) :
  0 <= sz ->
  InstallInternetStack (equipped sz st tm pc pr)
  = if sz <=? pool_max
    then Done tt (networked sz st tm pc pr)
    else Aborted AddressOverflow
           (set_NodeList
              (map (fun p => set_routing "aodv" (grid_node sz st p))
                   (seq 0 (Z.to_nat sz)))
              (equipped sz st tm pc pr)).
Proof.
  intros Hsz. unfold InstallInternetStack.
  unfold bind at 1. unfold InternetStackHelper_Install at 1. unfold modify at 1.
  unfold bind at 1. unfold gets at 1.
  unfold bind at 1.
  change (Ipv4AddressHelper.SetBase (ipv4 10 0 0 0) (ipv4 255 0 0 0))
    with (Ipv4AddressHelper.mk (ipv4 10 0 0 0) (ipv4 255 0 0 0) (Z.of_nat 0 + 1) pool_max).
  pose proof (stack_fresh "aodv" (grid_node sz st) (Z.to_nat sz) 0 [] eq_refl) as S.
  cbn [app] in S.
  unfold equipped, created. fields. rewrite S.
  rewrite (Assign_seq (Z.to_nat sz)); [| reflexivity | lia | rewrite pool_max_eq; lia].
  replace (Z.of_nat (0 + Z.to_nat sz)) with sz by lia.
  destruct (sz <=? pool_max); [|reflexivity].
  unfold modify, gets, bind, networked, equipped, created. fields.
  destruct pr.
  - unfold Create_OutputStreamWrapper, PrintRoutingTableAllAt, modify. fields.
    rewrite length_map, length_seq.
    change (@Simulator.empty Action) with (dump_queue 0).
    rewrite schedule_dumps. reflexivity.
  - reflexivity.
Qed.

Section Phases.
Variable RandU01 : Z -> Z -> Q.

(** The loop of [InstallApplications] that opens the receive endpoints. *)
Lemma sink_loop (count : nat) :
  forall (first : nat) (w : World),
    (forall i, (first <= i < first + count)%nat ->
               nth_error (nodes (this w)) i = Some i) ->
    for_range (Z.of_nat first) count
      (fun i =>
         node <- nodes_Get i ;;
         recvSink <- Socket_CreateSocket node "ns3::UdpSocketFactory" ;;
         Socket_Bind recvSink (mkInet Ipv4_GetAny 80) ;;
         Socket_SetRecvCallback recvSink Cb_ReceiveRoutingPacket) w
    = Done tt (set_sockets (w_sockets w ++ map recv_sink (seq first count)) w).
Proof.
  induction count as [|c IH]; intros first w H.
  - simpl. rewrite app_nil_r. now destruct w.
  - cbn [for_range]. unfold bind at 1. unfold bind at 1. unfold nodes_Get at 1.
    rewrite Nat2Z.id, H by lia.
    unfold bind at 1. unfold Socket_CreateSocket at 1.
    unfold bind at 1. unfold Socket_Bind at 1. unfold modify at 1.
    unfold Socket_SetRecvCallback at 1. unfold modify at 1. fields.
    rewrite (update_nth_app _ (w_sockets w) _ []).
    rewrite (update_nth_app _ (w_sockets w) _ []).
    cbn [sock_node sock_tid sock_local sock_recv sock_rx].
    replace (Z.of_nat first + 1) with (Z.of_nat (S first)) by lia.
    rewrite IH.
    + fields. cbn [seq map]. unfold recv_sink at 2. now rewrite <- app_assoc.
    + intros i Hi. fields. apply H. lia.
Qed.

Lemma u32_pred (sz : Z) : 1 <= sz <= uint32_max -> u32 (sz - 1) = sz - 1.
Proof. unfold u32, uint32_max. intros H. apply Z.mod_small. lia. Qed.

Lemma InstallApplications_installed (sz : Z) (st tm : Q) (pc pr : bool) :
  1 <= sz <= uint32_max ->
  InstallApplications RandU01 (networked sz st tm pc pr)
  = Done tt (installed RandU01 sz st tm pc pr).
Proof.
  intros H. unfold InstallApplications, installed.
  set (w := networked sz st tm pc pr).
  assert (Hn : nodes (this w) = seq 0 (Z.to_nat sz)) by reflexivity.
  assert (Hi : interfaces (this w) = map interface_of (seq 0 (Z.to_nat sz)))
    by reflexivity.
  assert (Hs : size (this w) = sz) by reflexivity.
  assert (Hk : w_sockets w = []) by reflexivity.
  assert (Ha : w_apps w = []) by reflexivity.
  assert (Hc : w_connect w = []) by reflexivity.
  assert (Hr : w_runs w = []) by reflexivity.
  assert (Hd : w_seed w = 12345) by reflexivity.
  assert (Ht : totalTime (this w) = tm) by reflexivity.
  clearbody w.
  unfold bind at 1. unfold nodes_GetN at 1. unfold gets at 1.
  unfold bind at 1. unfold for_upto.
  change 0 with (Z.of_nat 0) at 1.
  rewrite sink_loop.
  - rewrite Hn, length_seq, Nat2Z.id, Hk. cbn [app].
    unfold bind at 1. unfold gets at 1.
    unfold bind at 1. unfold interfaces_GetAddress at 1. fields.
    rewrite Hs, Hi, u32_pred, nth_error_map_seq by lia.
    unfold bind at 1. unfold nodes_Get at 1. fields.
    change (Z.to_nat 0) with O. rewrite Hn, nth_error_seq_0 by lia.
    unfold bind, OnOffHelper_Install, gets, ApplicationContainer_Start,
      ApplicationContainer_Stop, Config_Connect, Simulator_Stop, Simulator_Run,
      Simulator_Destroy, modify. fields.
    rewrite Ha, Hc, Hr, Hd, Ht.
    cbn [app List.length fold_left update_nth app_node app_protocol app_remote
         app_on app_off app_start app_stop].
    reflexivity.
  - intros i Hi'. rewrite Hn in *.
    rewrite length_seq, Nat2Z.id in Hi'. apply nth_error_seq_0. lia.
Qed.

Lemma InstallApplications_empty (st tm : Q) (pc pr : bool) :
  InstallApplications RandU01 (networked 0 st tm pc pr)
  = Aborted OutOfRange (networked 0 st tm pc pr).
Proof.
  unfold InstallApplications.
  set (w := networked 0 st tm pc pr).
  assert (Hn : nodes (this w) = []) by reflexivity.
  assert (Hi : interfaces (this w) = []) by reflexivity.
  clearbody w.
  unfold bind at 1. unfold nodes_GetN at 1. unfold gets at 1.
  rewrite Hn. cbn [List.length Z.of_nat for_upto Z.to_nat for_range].
  unfold bind at 1. unfold ret at 1.
  unfold bind at 1. unfold gets at 1.
  unfold bind at 1. unfold interfaces_GetAddress. rewrite Hi.
  now destruct (Z.to_nat _).
Qed.

(** [Run] from the configured world, by the number of nodes asked for. *)
Lemma Run_closed (sz : Z) (st tm : Q) (pc pr : bool) :
  0 <= sz <= uint32_max ->
  Run RandU01 (configured sz st tm pc pr)
  = if sz =? 0 then Aborted OutOfRange (networked 0 st tm pc pr)
    else if sz <=? pool_max then Done tt (finished RandU01 sz st tm pc pr)
    else Aborted AddressOverflow
           (set_NodeList
              (map (fun p => set_routing "aodv" (grid_node sz st p))
                   (seq 0 (Z.to_nat sz)))
              (equipped sz st tm pc pr)).
Proof.
  intros H. unfold Run.
  unfold bind at 1. rewrite CreateNodes_created by assumption.
  unfold bind at 1. rewrite CreateDevices_equipped.
  unfold bind at 1. rewrite InstallInternetStack_networked by lia.
  destruct (sz =? 0) eqn:E0.
  - apply Z.eqb_eq in E0. subst sz. cbn [Z.leb Z.compare pool_max].
    change (0 <=? pool_max) with true. cbv iota.
    unfold bind at 1. now rewrite InstallApplications_empty.
  - apply Z.eqb_neq in E0.
    destruct (sz <=? pool_max); [|reflexivity].
    unfold bind at 1. rewrite InstallApplications_installed by lia.
    unfold finished.
    set (w := installed RandU01 sz st tm pc pr).
    assert (Ht : totalTime (this w) = tm) by reflexivity.
    assert (Hs : w_sim w = Simulator.empty) by reflexivity.
    clearbody w.
    unfold bind, gets, cout, Simulator_Stop, Simulator_Run, Simulator_Destroy,
      modify. fields. rewrite Hs.
    destruct w as [a0 sd nl nm dv pcp fl sk ap cn sm rn co cl].
    cbn [w_sim this] in Hs, Ht. subst sm. fields. now rewrite Ht.
Qed.

End Phases.

Lemma Configure_closed (argv : list Arg) :
  Configure argv (boot AodvExample_new)
  = match parsed argv with
    | Some a => Done true (set_this a (set_seed 12345 (boot AodvExample_new)))
    | None => Aborted ParseExit (set_seed 12345 (boot AodvExample_new))
    end.
Proof.
  unfold Configure, parsed, bind, SeedManager_SetSeed, modify, ret.
  change (this (set_seed 12345 (boot AodvExample_new))) with AodvExample_new.
  fold registered.
  now destruct (CommandLine.Parse registered argv AodvExample_new).
Qed.

Lemma registered_set_pristine (it : CommandLine.Item AodvExample) (v : Value)
  (a a' : AodvExample) :
  In it registered -> pristine a ->
  CommandLine.item_set it v a = Some a' -> pristine a'.
Proof.
  intros Hin [Hn [Hd [Hi Hs]]] E.
  unfold registered, CommandLine.AddValue_double, CommandLine.AddValue_uint32,
    CommandLine.AddValue_bool in Hin. cbn [app] in Hin.
  repeat (destruct Hin as [<- | Hin]); try contradiction;
    cbn [CommandLine.item_set] in E; destruct v; try discriminate;
    try (injection E as <-; unfold pristine; cbn; tauto).
  destruct ((0 <=? n) && (n <=? uint32_max)) eqn:B; [|discriminate].
  injection E as <-. apply andb_prop in B. destruct B as [B1 B2].
  apply Z.leb_le in B1, B2. unfold pristine; cbn; tauto.
Qed.

Lemma Parse_pristine (argv : list Arg) :
  forall a a', pristine a ->
               CommandLine.Parse registered argv a = Some a' -> pristine a'.
Proof.
  induction argv as [|x argv IH]; intros a a' Ha E; cbn [CommandLine.Parse] in E.
  - now injection E as <-.
  - destruct (CommandLine.lookup registered (arg_name x)) as [it|] eqn:L;
      [|discriminate].
    destruct (CommandLine.item_set it (arg_value x) a) as [a1|] eqn:S;
      [|discriminate].
    apply (IH a1 a'); [|assumption].
    apply (registered_set_pristine it (arg_value x) a); try assumption.
    unfold CommandLine.lookup in L. now apply find_some in L.
Qed.

Lemma parsed_pristine (argv : list Arg) (a : AodvExample) :
  parsed argv = Some a -> pristine a.
Proof.
  apply Parse_pristine. repeat split; try reflexivity; unfold uint32_max; simpl; lia.
Qed.

Lemma pristine_configured (a : AodvExample) :
  pristine a ->
  set_this a (set_seed 12345 (boot AodvExample_new))
  = configured (size a) (step a) (totalTime a) (pcap a) (printRoutes a).
Proof.
  intros [Hn [Hd [Hi _]]]. destruct a as [sz st tm pc pr n d i].
  cbn in Hn, Hd, Hi. now subst.
Qed.

Section Whole.
Variable RandU01 : Z -> Z -> Q.

(** [main] in terms of [Run]. *)
Lemma main_Run (argv : list Arg) :
  main RandU01 argv
  = match parsed argv with
    | None => Aborted ParseExit (set_seed 12345 (boot AodvExample_new))
    | Some a =>
        match Run RandU01 (configured (size a) (step a) (totalTime a)
                                      (pcap a) (printRoutes a)) with
        | Done _ w => Done 0 w
        | Aborted e w => Aborted e w
        end
    end.
Proof.
  unfold main. unfold bind at 1. rewrite Configure_closed.
  destruct (parsed argv) as [a|] eqn:E; [|reflexivity].
  rewrite (pristine_configured a) by now apply (parsed_pristine argv).
  cbn [negb]. unfold bind at 1. unfold ret at 1. unfold bind at 1.
  destruct (Run RandU01 _); reflexivity.
Qed.

(** The four ways [main] can end. *)
Lemma main_closed (argv : list Arg) :
  main RandU01 argv
  = match parsed argv with
    | None => Aborted ParseExit (set_seed 12345 (boot AodvExample_new))
    | Some a =>
        let sz := size a in
        let st := step a in
        let tm := totalTime a in
        let pc := pcap a in
        let pr := printRoutes a in
        if sz =? 0 then Aborted OutOfRange (networked 0 st tm pc pr)
        else if sz <=? pool_max then Done 0 (finished RandU01 sz st tm pc pr)
        else Aborted AddressOverflow
               (set_NodeList
                  (map (fun p => set_routing "aodv" (grid_node sz st p))
                       (seq 0 (Z.to_nat sz)))
                  (equipped sz st tm pc pr))
    end.
Proof.
  rewrite main_Run. destruct (parsed argv) as [a|] eqn:E; [|reflexivity].
  apply parsed_pristine in E. destruct E as [_ [_ [_ Hs]]].
  rewrite Run_closed by assumption. cbv zeta.
  destruct (size a =? 0); [reflexivity|].
  destruct (size a <=? pool_max); reflexivity.
Qed.
End Whole.

Section SchedulerFacts.
Variable A : Type.
Variable handler : A -> Time -> list (Simulator.Command A).
Hypothesis handler_causal : Simulator.causal handler.

Import Simulator.

Lemma key_lt_time (e1 e2 : Event A) :
  key_lt e1 e2 -> (ev_time e1 <= ev_time e2)%Q.
Proof. intros [H | [H _]]; lra. Qed.

Lemma key_lt_later (e1 e2 : Event A) :
  (ev_time e1 <= ev_time e2)%Q -> (ev_seq e1 < ev_seq e2)%nat -> key_lt e1 e2.
Proof.
  intros Ht Hs. destruct (Qle_lt_or_eq _ _ Ht) as [H | H]; [now left | now right].
Qed.

Lemma Forall_insert (P : Event A -> Prop) (e : Event A) (q : list (Event A)) :
  P e -> Forall P q -> Forall P (insert e q).
Proof.
  intros He Hq. induction Hq as [|x r Hx Hr IH]; simpl.
  - now constructor.
  - destruct (Qle_bool (ev_time x) (ev_time e)); repeat constructor; assumption.
Qed.

Lemma insert_sorted (e : Event A) (q : list (Event A)) :
  StronglySorted key_lt q ->
  Forall (fun x => (ev_seq x < ev_seq e)%nat) q ->
  StronglySorted key_lt (insert e q).
Proof.
  induction q as [|x r IH]; intros Hs Hf; simpl.
  - repeat constructor.
  - apply StronglySorted_inv in Hs. destruct Hs as [Hr Hx].
    pose proof (Forall_inv Hf) as Hxe. pose proof (Forall_inv_tail Hf) as Hre.
    destruct (Qle_bool (ev_time x) (ev_time e)) eqn:E.
    + apply Qle_bool_iff in E. constructor.
      * now apply IH.
      * apply Forall_insert; [|assumption]. now apply key_lt_later.
    + assert (Hlt : (ev_time e < ev_time x)%Q).
      { apply Qnot_le_lt. intros H. apply Qle_bool_iff in H. congruence. }
      constructor.
      * now constructor.
      * constructor; [now left|].
        eapply Forall_impl; [|exact Hx]. intros y Hy. left.
        apply key_lt_time in Hy. lra.
Qed.

Lemma filter_sorted (f : Event A -> bool) (q : list (Event A)) :
  StronglySorted key_lt q -> StronglySorted key_lt (filter f q).
Proof.
  induction 1 as [|x r Hr IH Hx]; simpl; [constructor|].
  destruct (f x); [|assumption]. constructor; [assumption|].
  apply Forall_forall. intros y Hy. apply filter_In in Hy.
  rewrite Forall_forall in Hx. now apply Hx.
Qed.

Lemma Forall_filter (P : Event A -> Prop) (f : Event A -> bool) (q : list (Event A)) :
  Forall P q -> Forall P (filter f q).
Proof.
  rewrite !Forall_forall. intros H y Hy. apply filter_In in Hy. now apply H.
Qed.

Lemma exec_now (s : t A) (c : Command A) : now (exec s c) = now s.
Proof. now destruct c. Qed.

Lemma exec_stop_time (s : t A) (c : Command A) : stop_time (exec s c) = stop_time s.
Proof. now destruct c. Qed.

Lemma exec_wf (s : t A) (c : Command A) : harmless c -> wf s -> wf (exec s c).
Proof.
  intros Hc [Hs Hf Hn]. destruct c as [d a | id]; simpl in *.
  - constructor; simpl.
    + apply insert_sorted; assumption.
    + apply Forall_insert; [simpl; lra | assumption].
    + apply Forall_insert; [simpl; lia|].
      eapply Forall_impl; [|exact Hn]. intros; simpl in *; lia.
  - constructor; simpl;
      [now apply filter_sorted | now apply Forall_filter | now apply Forall_filter].
Qed.

Lemma exec_precedes (e0 : Event A) (s : t A) (c : Command A) :
  harmless c -> precedes e0 s -> precedes e0 (exec s c).
Proof.
  intros Hc [Ht [Hn Hq]]. destruct c as [d a | id]; simpl in *.
  - repeat split; simpl; [assumption | lia |].
    apply Forall_insert; [|assumption].
    apply key_lt_later; simpl; [lra | lia].
  - repeat split; simpl; [assumption | assumption | now apply Forall_filter].
Qed.

Lemma fold_exec_inv (P : t A -> Prop) (cs : list (Command A)) :
  (forall s c, harmless c -> P s -> P (exec s c)) ->
  Forall harmless cs ->
  forall s, P s -> P (fold_left exec cs s).
Proof.
  intros Hstep Hcs. induction Hcs as [|c cs Hc _ IH]; intros s Hs; simpl.
  - assumption.
  - apply IH. now apply Hstep.
Qed.

Lemma fold_exec_stop_time (cs : list (Command A)) (s : t A) :
  stop_time (fold_left exec cs s) = stop_time s.
Proof.
  revert s. induction cs as [|c cs IH]; intros s; simpl; [reflexivity|].
  now rewrite IH, exec_stop_time.
Qed.

Lemma handler_harmless (a : A) (t0 : Time) : Forall harmless (handler a t0).
Proof.
  apply Forall_forall. intros [d a' | id] Hin; simpl; [|exact I].
  exact (handler_causal a t0 d a' Hin).
Qed.

(** The events of a run follow whatever was dispatched before it. *)
Lemma Run_follows (fuel : nat) :
  forall (s : t A) (e0 : Event A),
    wf s -> precedes e0 s -> Forall (key_lt e0) (fst (Run handler fuel s)).
Proof.
  induction fuel as [|fuel IH]; intros s e0 Hwf Hpre; simpl; [constructor|].
  destruct (queue s) as [|e q] eqn:Eq; [constructor|].
  destruct (beyond_stop s e); [constructor|].
  set (s1 := mk (ev_time e) (next_seq s) q (stop_time s)).
  set (s2 := fold_left exec (handler (ev_action e) (ev_time e)) s1).
  destruct (Run handler fuel s2) as [d s3] eqn:ER. simpl.
  destruct Hwf as [Hs Hf Hn]. rewrite Eq in Hs, Hf, Hn.
  apply StronglySorted_inv in Hs. destruct Hs as [Hq He].
  destruct Hpre as [Ht [Hseq Hall]]. rewrite Eq in Hall.
  pose proof (Forall_inv Hall) as H0e.
  assert (Hwf1 : wf s1).
  { constructor; simpl.
    - assumption.
    - eapply Forall_impl; [|exact He]. intros y Hy. now apply key_lt_time.
    - now apply Forall_inv_tail in Hn. }
  assert (Hpre1 : precedes e0 s1).
  { repeat split; simpl.
    - now apply key_lt_time.
    - assumption.
    - now apply Forall_inv_tail in Hall. }
  constructor; [assumption|].
  change d with (fst (d, s3)). rewrite <- ER. apply IH.
  - apply fold_exec_inv; [apply exec_wf | apply handler_harmless | exact Hwf1].
  - apply fold_exec_inv;
      [intros; now apply exec_precedes | apply handler_harmless | exact Hpre1].
Qed.

(** A run dispatches in the order of the keys. *)
Lemma Run_sorted (fuel : nat) :
  forall (s : t A), wf s -> StronglySorted key_lt (fst (Run handler fuel s)).
Proof.
  induction fuel as [|fuel IH]; intros s Hwf; simpl; [constructor|].
  destruct (queue s) as [|e q] eqn:Eq; [constructor|].
  destruct (beyond_stop s e); [constructor|].
  set (s1 := mk (ev_time e) (next_seq s) q (stop_time s)).
  set (s2 := fold_left exec (handler (ev_action e) (ev_time e)) s1).
  destruct (Run handler fuel s2) as [d s3] eqn:ER. simpl.
  destruct Hwf as [Hs Hf Hn]. rewrite Eq in Hs, Hf, Hn.
  apply StronglySorted_inv in Hs. destruct Hs as [Hq He].
  assert (Hwf1 : wf s1).
  { constructor; simpl.
    - assumption.
    - eapply Forall_impl; [|exact He]. intros y Hy. now apply key_lt_time.
    - now apply Forall_inv_tail in Hn. }
  assert (Hpre1 : precedes e s1).
  { repeat split; simpl.
    - lra.
    - now apply Forall_inv in Hn.
    - assumption. }
  assert (Hwf2 : wf s2).
  { apply fold_exec_inv; [apply exec_wf | apply handler_harmless | exact Hwf1]. }
  change d with (fst (d, s3)). rewrite <- ER. constructor.
  - now apply IH.
  - apply Run_follows; [assumption|].
    apply fold_exec_inv;
      [intros; now apply exec_precedes | apply handler_harmless | exact Hpre1].
Qed.

(** A run dispatches nothing beyond the stop time. *)
Lemma Run_within (fuel : nat) :
  forall (s : t A) (limit : Time),
    stop_time s = Some limit ->
    Forall (fun e => (ev_time e <= limit)%Q) (fst (Run handler fuel s)).
Proof.
  induction fuel as [|fuel IH]; intros s limit Hl; simpl; [constructor|].
  destruct (queue s) as [|e q] eqn:Eq; [constructor|].
  destruct (beyond_stop s e) eqn:B; [constructor|].
  set (s1 := mk (ev_time e) (next_seq s) q (stop_time s)).
  set (s2 := fold_left exec (handler (ev_action e) (ev_time e)) s1).
  destruct (Run handler fuel s2) as [d s3] eqn:ER. simpl.
  constructor.
  - unfold beyond_stop in B. rewrite Hl in B.
    apply negb_false_iff in B. now apply Qle_bool_iff in B.
  - change d with (fst (d, s3)). rewrite <- ER. apply IH.
    unfold s2. now rewrite fold_exec_stop_time.
Qed.

Lemma Stop_wf (delay : Time) (s : t A) : wf s -> wf (Stop delay s).
Proof. intros [Hs Hf Hn]. now constructor. Qed.

Lemma empty_wf : wf (@empty A).
Proof. constructor; constructor. Qed.

End SchedulerFacts.

(** *** Host numbers inside 10.0.0.0/255.0.0.0 *)

Lemma host_bits_high (h n : Z) : 0 <= h < 2 ^ 24 -> 24 <= n -> Z.testbit h n = false.
Proof.
  intros Hh Hn. destruct (Z.eq_dec h 0) as [-> | Hz]; [apply Z.bits_0|].
  apply Z.bits_above_log2; [lia|].
  assert (Z.log2 h < 24) by (apply Z.log2_lt_pow2; lia). lia.
Qed.

Lemma net_bits_low (n : Z) : 0 <= n < 24 -> Z.testbit (ipv4 10 0 0 0) n = false.
Proof.
  intros Hn. change (ipv4 10 0 0 0) with (Z.shiftl 10 24).
  apply Z.shiftl_spec_low. lia.
Qed.

Lemma mask_bits_low (n : Z) : 0 <= n < 24 -> Z.testbit (ipv4 255 0 0 0) n = false.
Proof.
  intros Hn. change (ipv4 255 0 0 0) with (Z.shiftl 255 24).
  apply Z.shiftl_spec_low. lia.
Qed.

Lemma host_in_subnet (h : Z) :
  0 <= h < 2 ^ 24 ->
  Ipv4AddressHelper.in_subnet (ipv4 10 0 0 0) (ipv4 255 0 0 0)
                              (Z.lor (ipv4 10 0 0 0) h).
Proof.
  intros Hh. unfold Ipv4AddressHelper.in_subnet.
  apply Z.bits_inj'. intros n Hn.
  rewrite !Z.land_spec, Z.lor_spec.
  destruct (Z_lt_le_dec n 24) as [L | G].
  - rewrite mask_bits_low by lia. now rewrite !andb_false_r.
  - rewrite (host_bits_high h n) by lia. now rewrite orb_false_r.
Qed.

Lemma host_address (h : Z) :
  0 <= h < 2 ^ 24 -> Z.lor (ipv4 10 0 0 0) h = ipv4 10 0 0 0 + h.
Proof.
  intros Hh.
  assert (D : Z.land (ipv4 10 0 0 0) h = 0).
  { apply Z.bits_inj'. intros n Hn. rewrite Z.land_spec, Z.bits_0.
    destruct (Z_lt_le_dec n 24) as [L | G].
    - now rewrite net_bits_low by lia.
    - rewrite (host_bits_high h n) by lia. apply andb_false_r. }
  rewrite <- Z.lxor_lor by exact D. symmetry. now apply Z.add_nocarry_lxor.
Qed.

Lemma interface_addresses_NoDup (n : nat) :
  Z.of_nat n <= pool_max ->
  NoDup (map if_address (map interface_of (seq 0 n))).
Proof.
  intros Hn. rewrite map_map. apply NoDup_map_NoDup_ForallPairs.
  - intros p q Hp Hq E. apply in_seq in Hp, Hq. rewrite pool_max_eq in Hn.
    unfold interface_of in E. cbn [if_address] in E.
    rewrite !host_address in E by lia. lia.
  - apply seq_NoDup.
Qed.

(** *** Grid positions *)

Lemma grid_position_line (sz : Z) (st : Q) (p : nat) :
  Z.of_nat p < sz ->
  let pos := fst (GridPositionAllocator.GetNext (allocator sz st p)) in
  vx pos == inject_Z (Z.of_nat p mod sz) * st
  /\ vy pos == inject_Z (Z.of_nat p / sz) * st
  /\ vx pos == inject_Z (Z.of_nat p) * st
  /\ vy pos == 0.
Proof.
  intros H. cbn. rewrite Z.mod_small, Z.div_small by lia.
  repeat split; ring.
Qed.

(** The first three phases of [Run]. *)
Lemma setup_closed (sz : Z) (st tm : Q) (pc pr : bool) :
  0 <= sz <= uint32_max ->
  (CreateNodes ;; CreateDevices ;; InstallInternetStack) (configured sz st tm pc pr)
  = if sz <=? pool_max
    then Done tt (networked sz st tm pc pr)
    else Aborted AddressOverflow
           (set_NodeList
              (map (fun p => set_routing "aodv" (grid_node sz st p))
                   (seq 0 (Z.to_nat sz)))
              (equipped sz st tm pc pr)).
Proof.
  intros H. unfold bind at 1. rewrite CreateNodes_created by assumption.
  unfold bind at 1. rewrite CreateDevices_equipped.
  apply InstallInternetStack_networked. lia.
Qed.

(** [main] returns for every valid command line that asks for at least
    one node and no more than the subnet has addresses. *)
Lemma main_completes (RandU01 : Z -> Z -> Q) (argv : list Arg) (a : AodvExample) :
  parsed argv = Some a -> 1 <= size a <= pool_max ->
  main RandU01 argv
  = Done 0 (finished RandU01 (size a) (step a) (totalTime a) (pcap a)
                     (printRoutes a)).
Proof.
  intros E H. rewrite main_closed, E. cbv zeta.
  replace (size a =? 0) with false by (symmetry; apply Z.eqb_neq; lia).
  replace (size a <=? pool_max) with true by (symmetry; apply Z.leb_le; lia).
  reflexivity.
Qed.

(** A returning [main] has parsed its command line, and ends in the world
    [finished]. *)
Lemma main_Done_inv (RandU01 : Z -> Z -> Q) (argv : list Arg) (c : Z) (w : World) :
  main RandU01 argv = Done c w ->
  exists a,
    parsed argv = Some a /\ 1 <= size a <= pool_max /\ c = 0
    /\ w = finished RandU01 (size a) (step a) (totalTime a) (pcap a)
                    (printRoutes a).
Proof.
  rewrite main_closed. destruct (parsed argv) as [a|] eqn:E; [|discriminate].
  apply parsed_pristine in E. destruct E as [_ [_ [_ Hs]]]. cbv zeta.
  destruct (size a =? 0) eqn:E0; [discriminate|].
  destruct (size a <=? pool_max) eqn:E1; [|discriminate].
  intros H. injection H as <- <-. exists a.
  apply Z.eqb_neq in E0. apply Z.leb_le in E1. repeat split; try lia.
Qed.

Lemma half_draw_unit : (forall seed stream, 0 <= half_draw seed stream < 1)%Q.
Proof. intros. unfold half_draw. lra. Qed.

Lemma main_default :
  main half_draw [] = Done 0 (finished half_draw 10 100 100 false true).
Proof.
  apply (main_completes half_draw [] AodvExample_new); [reflexivity|].
  rewrite pool_max_eq. simpl. lia.
Qed.

Lemma string_app_nil_r (s : string) : (s ++ EmptyString)%string = s.
Proof. induction s as [|c s IH]; simpl; [reflexivity | now rewrite IH]. Qed.

Lemma string_length_app (s1 s2 : string) :
  String.length (s1 ++ s2) = (String.length s1 + String.length s2)%nat.
Proof. induction s1 as [|c s IH]; simpl; [reflexivity | now rewrite IH]. Qed.

Lemma render_prefixed (fmt : Q -> string) (l : Text) :
  render fmt (T_str "AODV " :: l) <> render fmt l.
Proof.
  intros E. apply (f_equal String.length) in E. cbn [render render_token] in E.
  rewrite string_length_app in E. simpl in E. lia.
Qed.

Lemma nth_error_update_nth {A : Type} (f : A -> A) (l : list A) :
  forall (n : nat) (x : A),
    nth_error l n = Some x -> nth_error (update_nth n f l) n = Some (f x).
Proof.
  induction l as [|y l IH]; intros [|n] x H; simpl in *; try discriminate.
  - now injection H as ->.
  - now apply IH.
Qed.

Lemma print_line (socket : Ptr) (packet : Packet) (src : Address) (w : World)
  (k : Socket) (nd : Node) :
  nth_error (w_sockets w) socket = Some k ->
  nth_error (w_NodeList w) (sock_node k) = Some nd ->
  PrintReceivedRoutingPacket socket packet src w
  = Done (spec_receive_line (Simulator.now (w_sim w)) (node_id nd) src) w.
Proof.
  intros Hk Hn.
  unfold PrintReceivedRoutingPacket, bind, Simulator_Now, gets, Socket_GetNode_GetId.
  rewrite Hk, Hn. now destruct src.
Qed.

(** The reading loop of [ReceiveRoutingPacket]: one line for each unread
    packet, oldest first, and the socket is left with nothing to read. *)
Lemma receive_loop (socket : Ptr) (nd : Node) (rx : list (Packet * Address)) :
  forall (rounds : nat) (w : World) (k : Socket),
    nth_error (w_sockets w) socket = Some k ->
    nth_error (w_NodeList w) (sock_node k) = Some nd ->
    sock_rx k = rx ->
    (List.length rx < rounds)%nat ->
    exists w',
      ReceiveRoutingPacket_loop rounds socket w = Done tt w'
      /\ w_clog w'
         = w_clog w
           ++ map (fun pa => T_str "AODV "
                             :: spec_receive_line (Simulator.now (w_sim w))
                                                  (node_id nd) (snd pa)) rx
      /\ nth_error (w_sockets w') socket = Some (drained k).
Proof.
  induction rx as [|[packet src] rx IH]; intros rounds w k Hk Hn Hrx Hr;
    destruct rounds as [|rounds]; try (simpl in Hr; lia).
  - exists w. cbn [ReceiveRoutingPacket_loop]. unfold bind, Socket_RecvFrom.
    rewrite Hk, Hrx. split; [reflexivity|]. split.
    + cbn [map]. now rewrite app_nil_r.
    + f_equal. destruct k; cbn in *. now subst.
  - cbn [ReceiveRoutingPacket_loop]. unfold bind at 1. unfold Socket_RecvFrom at 1.
    rewrite Hk, Hrx.
    set (k1 := mkSocket (sock_node k) (sock_tid k) (sock_local k) (sock_recv k) rx).
    set (w1 := set_sockets _ w).
    assert (Hk1 : nth_error (w_sockets w1) socket = Some k1).
    { unfold w1. fields. exact (nth_error_update_nth _ _ _ _ Hk). }
    unfold bind at 1.
    rewrite (print_line socket packet src w1 k1 nd Hk1 Hn).
    unfold bind at 1. unfold NS_LOG_UNCOND at 1. unfold modify at 1.
    set (line := T_str "AODV " :: spec_receive_line (Simulator.now (w_sim w1))
                                                    (node_id nd) src).
    destruct (IH rounds (set_clog (w_clog w1 ++ [line]) w1) k1) as [w' [E [Hc Hs]]].
    + exact Hk1.
    + exact Hn.
    + reflexivity.
    + simpl in Hr. lia.
    + exists w'. split; [exact E|]. split.
      * rewrite Hc. fields. cbn [map snd]. unfold line.
        change (w_clog w1) with (w_clog w). change (w_sim w1) with (w_sim w).
        now rewrite <- app_assoc.
      * exact Hs.
Qed.

Lemma StronglySorted_weaken {A : Type} (R R' : A -> A -> Prop) (l : list A) :
  (forall x y, R x y -> R' x y) -> StronglySorted R l -> StronglySorted R' l.
Proof.
  intros H. induction 1 as [|x l Hl IH Hx]; constructor.
  - exact IH.
  - eapply Forall_impl; [|exact Hx]. intros y. apply H.
Qed.

Lemma dump_queue_wf (n : nat) : Simulator.wf (dump_queue n).
Proof.
  induction n as [|n IH]; [apply empty_wf|].
  pose proof (schedule_dumps 1 n) as E. cbn [seq fold_left] in E.
  replace (n + 1)%nat with (S n) in E by lia. rewrite <- E.
  apply (exec_wf Action (dump_queue n)
           (Simulator.Cmd_schedule (Seconds 8) (PrintRoutingTable n "aodv.routes")));
    [|exact IH].
  unfold Simulator.harmless, Seconds. lra.
Qed.

(** The scheduler [Simulator::Run] is entered with is in order, both
    times, and stops at the total time. *)
Lemma runs_of_main (RandU01 : Z -> Z -> Q) (argv : list Arg) (w : World) (r : RunStart) :
  main RandU01 argv = Done 0 w -> In r (w_runs w) ->
  Simulator.wf (run_sim r)
  /\ Simulator.stop_time (run_sim r) = Some (0 + Seconds (totalTime (this w)))%Q.
Proof.
  intros E Hr. apply main_Done_inv in E. destruct E as [a [Ea [Hs [_ ->]]]].
  revert Hr. unfold finished, installed, networked. fields. cbn [app].
  intros [<- | [<- | []]]; cbn [run_sim]; split; try reflexivity.
  - apply Stop_wf. destruct (printRoutes a); [apply dump_queue_wf | apply empty_wf].
  - now destruct (printRoutes a).
  - apply Stop_wf, empty_wf.
Qed.

Lemma main_default_run : main half_draw [] = Done 0 default_run.
Proof. unfold default_run. now rewrite main_default. Qed.

Lemma follow_up_causal : Simulator.causal follow_up.
Proof.
  intros [n s | tag] t0 d a' H; simpl in H.
  - destruct H as [H | []]. injection H as <- _. lra.
  - contradiction.
Qed.

Lemma first_loop_In : In first_loop (w_runs default_run).
Proof. unfold first_loop, default_run. rewrite main_default. left. reflexivity. Qed.

(** * The claims of the specification *)

(** C1: for every node count N (size) and spacing (step), after CreateNodes
    has run, node i, for all i in [0, N), stands at
    ((i mod W)·step, (i div W)·step) with the row width W = N, which is the
    line (i·step, 0). *)
Theorem C1_grid_positions (sz : Z) (st tm : Q) (pc pr : bool) :
  0 <= sz <= uint32_max ->
  exists w,
    CreateNodes (configured sz st tm pc pr) = Done tt w
    /\ List.length (w_NodeList w) = Z.to_nat sz
    /\ forall i, 0 <= i < sz ->
         exists nd pos,
           nth_error (w_NodeList w) (Z.to_nat i) = Some nd
           /\ node_id nd = i
           /\ node_mobility nd = Some pos
           /\ vx pos == inject_Z (i mod sz) * st
           /\ vy pos == inject_Z (i / sz) * st
           /\ vx pos == inject_Z i * st
           /\ vy pos == 0.
Proof.
  intros H. exists (created sz st tm pc pr). split; [|split].
  - now apply CreateNodes_created.
  - unfold created. fields. now rewrite length_map, length_seq.
  - intros i Hi. unfold created. fields.
    rewrite nth_error_map_seq by lia.
    exists (grid_node sz st (Z.to_nat i)).
    exists (fst (GridPositionAllocator.GetNext (allocator sz st (Z.to_nat i)))).
    split; [reflexivity|]. split; [cbn; lia|]. split; [reflexivity|].
    pose proof (grid_position_line sz st (Z.to_nat i)) as P.
    rewrite Z2Nat.id in P by lia. apply P. lia.
Qed.

Lemma C1_grid_positions_witness :
  exists w,
    CreateNodes (configured 4 100 100 false true) = Done tt w
    /\ List.length (w_NodeList w) = Z.to_nat 4
    /\ forall i, 0 <= i < 4 ->
         exists nd pos,
           nth_error (w_NodeList w) (Z.to_nat i) = Some nd
           /\ node_id nd = i
           /\ node_mobility nd = Some pos
           /\ vx pos == inject_Z (i mod 4) * 100
           /\ vy pos == inject_Z (i / 4) * 100
           /\ vx pos == inject_Z i * 100
           /\ vy pos == 0.
Proof.
  apply (C1_grid_positions 4 100 100 false true). unfold uint32_max. lia.
Defined.

(** C2: exactly one traffic flow is created per run: an OnOff application
    installed on node 0 and addressed to the address of node size-1 on port
    80, whose start time is a drawn value in [1.0, 2.0) seconds and whose
    stop time is exactly 10.0 seconds, whatever the configured total
    simulation time.  The raw draws of the generator lie in [0, 1). *)
Theorem C2_single_flow (RandU01 : Z -> Z -> Q) (argv : list Arg) (w : World) :
  (forall seed stream, 0 <= RandU01 seed stream < 1)%Q ->
  main RandU01 argv = Done 0 w ->
  exists app sink start,
    w_apps w = [app]
    /\ Forall (fun r => run_apps r = [app]) (w_runs w)
    /\ app_node app = 0%nat
    /\ nth_error (nodes (this w)) 0 = Some 0%nat
    /\ nth_error (interfaces (this w)) (Z.to_nat (size (this w) - 1)) = Some sink
    /\ nth_error (nodes (this w)) (Z.to_nat (size (this w) - 1)) = Some (if_node sink)
    /\ app_remote app = Address_inet (if_address sink) 80
    /\ app_start app = Some start
    /\ (1 <= start < 2)%Q
    /\ app_stop app = Some (Seconds 10).
Proof.
  intros Hu E. apply main_Done_inv in E.
  destruct E as [a [Ea [Hs [_ ->]]]].
  pose proof (parsed_pristine argv a Ea) as [_ [_ [_ Hr]]].
  set (sz := size a) in *.
  exists (flow RandU01 sz), (interface_of (Z.to_nat (sz - 1))).
  exists (Seconds (UniformRandomVariable.GetValue RandU01 12345
                     (UniformRandomVariable.mk 2) 1 2)).
  unfold finished, installed, networked, equipped, created. fields.
  repeat split.
  - repeat constructor.
  - apply nth_error_seq_0. lia.
  - apply nth_error_map_seq. lia.
  - cbn [interface_of if_node]. apply nth_error_seq_0. lia.
  - unfold UniformRandomVariable.GetValue, Seconds. cbn [UniformRandomVariable.m_stream].
    specialize (Hu 12345 2). lra.
  - unfold UniformRandomVariable.GetValue, Seconds. cbn [UniformRandomVariable.m_stream].
    specialize (Hu 12345 2). lra.
Qed.

Lemma C2_single_flow_witness :
  exists app sink start,
    w_apps default_run = [app]
    /\ Forall (fun r => run_apps r = [app]) (w_runs default_run)
    /\ app_node app = 0%nat
    /\ nth_error (nodes (this default_run)) 0 = Some 0%nat
    /\ nth_error (interfaces (this default_run))
                 (Z.to_nat (size (this default_run) - 1)) = Some sink
    /\ nth_error (nodes (this default_run))
                 (Z.to_nat (size (this default_run) - 1)) = Some (if_node sink)
    /\ app_remote app = Address_inet (if_address sink) 80
    /\ app_start app = Some start
    /\ (1 <= start < 2)%Q
    /\ app_stop app = Some (Seconds 10).
Proof.
  apply (C2_single_flow half_draw [] default_run).
  - exact half_draw_unit.
  - exact main_default_run.
Defined.

(** C3, as the code has it: every transmit callback writes exactly one
    line, which reads `<time> source <sourceAddress> send to dest
    <destAddress>` when both addresses are Internet socket addresses, and
    every packet read by the receive callback writes exactly one line
    `AODV <time> <nodeId> received one packet from <sourceAddress>` (or
    `AODV <time> <nodeId> received one packet!` when the source is not an
    Internet socket address), each line appended at once, in the order of
    the calls. *)
Theorem C3_trace_lines (socket : Ptr) (w : World) (k : Socket) (nd : Node) :
  nth_error (w_sockets w) socket = Some k ->
  nth_error (w_NodeList w) (sock_node k) = Some nd ->
  (forall context packet source dest,
     exists line,
       OnOffTrace context packet source dest w
       = Done tt (set_clog (w_clog w ++ [line]) w)
       /\ forall a pa b pb,
            source = Address_inet a pa -> dest = Address_inet b pb ->
            line = spec_transmit_line (Simulator.now (w_sim w)) a b
            /\ forall fmt,
                 render fmt line
                 = (fmt (Simulator.now (w_sim w)) ++ " source " ++ show_ipv4 a
                    ++ " send to dest " ++ show_ipv4 b)%string)
  /\ exists w',
       ReceiveRoutingPacket socket w = Done tt w'
       /\ w_clog w'
          = w_clog w
            ++ map (fun pa => T_str "AODV "
                              :: spec_receive_line (Simulator.now (w_sim w))
                                                   (node_id nd) (snd pa))
                   (sock_rx k)
       /\ nth_error (w_sockets w') socket = Some (drained k)
       /\ forall fmt ip port,
            render fmt (T_str "AODV "
                        :: spec_receive_line (Simulator.now (w_sim w)) (node_id nd)
                                             (Address_inet ip port))
            = ("AODV " ++ fmt (Simulator.now (w_sim w)) ++ " "
               ++ show_uint (node_id nd) ++ " received one packet from "
               ++ show_ipv4 ip)%string.
Proof.
  intros Hk Hn. split.
  - intros context packet source dest.
    unfold OnOffTrace, bind, Simulator_Now, gets, NS_LOG_UNCOND, modify.
    eexists. split; [reflexivity|].
    intros a pa b pb -> ->. split; [reflexivity|].
    intros fmt. cbn. now rewrite string_app_nil_r.
  - unfold ReceiveRoutingPacket. rewrite Hk.
    destruct (receive_loop socket nd (sock_rx k) (S (List.length (sock_rx k))) w k)
      as [w' [E [Hc Hs]]]; try assumption; try reflexivity; try lia.
    exists w'. repeat split; try assumption.
    intros fmt ip port. cbn. now rewrite string_app_nil_r.
Qed.

Lemma C3_trace_lines_witness :
  (forall context packet source dest,
     exists line,
       OnOffTrace context packet source dest delivered
       = Done tt (set_clog (w_clog delivered ++ [line]) delivered)
       /\ forall a pa b pb,
            source = Address_inet a pa -> dest = Address_inet b pb ->
            line = spec_transmit_line (Simulator.now (w_sim delivered)) a b
            /\ forall fmt,
                 render fmt line
                 = (fmt (Simulator.now (w_sim delivered)) ++ " source " ++ show_ipv4 a
                    ++ " send to dest " ++ show_ipv4 b)%string)
  /\ exists w',
       ReceiveRoutingPacket 3%nat delivered = Done tt w'
       /\ w_clog w'
          = w_clog delivered
            ++ map (fun pa => T_str "AODV "
                              :: spec_receive_line (Simulator.now (w_sim delivered))
                                                   3 (snd pa))
                   [packet_from_node0]
       /\ nth_error (w_sockets w') 3%nat = Some (drained (recv_sink 3%nat))
       /\ forall fmt ip port,
            render fmt (T_str "AODV "
                        :: spec_receive_line (Simulator.now (w_sim delivered)) 3
                                             (Address_inet ip port))
            = ("AODV " ++ fmt (Simulator.now (w_sim delivered)) ++ " "
               ++ show_uint 3 ++ " received one packet from "
               ++ show_ipv4 ip)%string.
Proof.
  apply (C3_trace_lines 3%nat delivered
           (mkSocket 3%nat "ns3::UdpSocketFactory" (Some (mkInet Ipv4_GetAny 80))
                     (Some Cb_ReceiveRoutingPacket) [packet_from_node0])
           (mkNode 3 (Some (mkVector (0 + 100 * inject_Z 3) (0 + 0 * inject_Z 0) 0))
                   (Some "aodv"))).
  - vm_compute. reflexivity.
  - vm_compute. reflexivity.
Defined.

(** C3 as stated fails: the line written for a received packet starts with
    `AODV `, which the stated format does not have, and a transmit whose
    source is not an Internet socket address is written without a source
    address and without ` send to dest `. *)
Lemma C3_counterexample :
  (exists w',
     ReceiveRoutingPacket 3%nat delivered = Done tt w'
     /\ w_clog w' = [T_str "AODV " :: spec_receive_line 0%Q 3 (snd packet_from_node0)]
     /\ w_clog w' <> [spec_receive_line 0%Q 3 (snd packet_from_node0)]
     /\ forall fmt,
          map (render fmt) (w_clog w')
          <> [render fmt (spec_receive_line 0%Q 3 (snd packet_from_node0))])
  /\ (exists w',
        OnOffTrace "/NodeList/0/ApplicationList/0/$ns3::OnOffApplication/TxWithAddresses"
                   (mkPacket 512) (Address_other 2) (Address_inet (ipv4 10 0 0 4) 80)
                   delivered = Done tt w'
        /\ w_clog w' = [[T_double 0%Q; T_str " source "; T_ipv4 (ipv4 10 0 0 4)]]
        /\ forall src, w_clog w' <> [spec_transmit_line 0%Q src (ipv4 10 0 0 4)]).
Proof.
  split.
  - eexists. split; [vm_compute; reflexivity|]. split; [reflexivity|].
    split; [discriminate|].
    intros fmt E.
    apply (render_prefixed fmt (spec_receive_line 0%Q 3 (snd packet_from_node0))).
    exact (f_equal (hd EmptyString) E).
  - eexists. split; [vm_compute; reflexivity|]. split; [reflexivity|].
    intros src. discriminate.
Qed.

(** C4, as the code has it: with size=1 the topology builds without
    error, one flow is created, from node 0 to the address of node 0
    itself, and the run returns the exit code 0 after two event loops that
    stop at the configured time; with size=0 the topology builds without
    error and is empty, and no flow is created. *)
Theorem C4_degenerate (RandU01 : Z -> Z -> Q) (argv1 argv0 : list Arg)
  (a1 a0 : AodvExample) :
  parsed argv1 = Some a1 -> size a1 = 1 ->
  parsed argv0 = Some a0 -> size a0 = 0 ->
  (exists w app sink,
     main RandU01 argv1 = Done 0 w
     /\ List.length (w_NodeList w) = 1%nat
     /\ nodes (this w) = [0%nat]
     /\ w_apps w = [app]
     /\ app_node app = 0%nat
     /\ interfaces (this w) = [sink]
     /\ if_node sink = 0%nat
     /\ if_address sink = ipv4 10 0 0 1
     /\ app_remote app = Address_inet (if_address sink) 80
     /\ List.length (w_runs w) = 2%nat
     /\ Forall (fun r => Simulator.stop_time (run_sim r)
                         = Some (0 + Seconds (totalTime a1))%Q
                         /\ run_apps r = [app])
               (w_runs w))
  /\ (exists w,
        (CreateNodes ;; CreateDevices ;; InstallInternetStack)
          (configured (size a0) (step a0) (totalTime a0) (pcap a0) (printRoutes a0))
        = Done tt w
        /\ w_NodeList w = []
        /\ nodes (this w) = []
        /\ devices (this w) = []
        /\ interfaces (this w) = []
        /\ w_apps (world_of (main RandU01 argv0)) = []).
Proof.
  intros E1 S1 E0 S0. split.
  - rewrite (main_completes RandU01 argv1 a1 E1) by (rewrite S1, pool_max_eq; lia).
    rewrite S1.
    exists (finished RandU01 1 (step a1) (totalTime a1) (pcap a1) (printRoutes a1)).
    exists (flow RandU01 1), (interface_of 0).
    unfold finished, installed, networked, equipped, created. fields.
    cbn [Z.to_nat Pos.to_nat Pos.iter_op Nat.add seq map app List.length].
    repeat split.
    repeat constructor; cbn [run_sim Simulator.stop_time Simulator.Stop Simulator.now];
      now destruct (printRoutes a1).
  - rewrite S0.
    exists (networked 0 (step a0) (totalTime a0) (pcap a0) (printRoutes a0)).
    split; [|repeat split].
    + rewrite setup_closed by (unfold uint32_max; lia). reflexivity.
    + rewrite main_closed, E0. cbv zeta. rewrite S0. reflexivity.
Qed.

Lemma C4_degenerate_witness :
  (exists w app sink,
     main half_draw one_node = Done 0 w
     /\ List.length (w_NodeList w) = 1%nat
     /\ nodes (this w) = [0%nat]
     /\ w_apps w = [app]
     /\ app_node app = 0%nat
     /\ interfaces (this w) = [sink]
     /\ if_node sink = 0%nat
     /\ if_address sink = ipv4 10 0 0 1
     /\ app_remote app = Address_inet (if_address sink) 80
     /\ List.length (w_runs w) = 2%nat
     /\ Forall (fun r => Simulator.stop_time (run_sim r)
                         = Some (0 + Seconds (totalTime (set_size 1 AodvExample_new)))%Q
                         /\ run_apps r = [app])
               (w_runs w))
  /\ (exists w,
        (CreateNodes ;; CreateDevices ;; InstallInternetStack)
          (configured (size (set_size 0 AodvExample_new))
                      (step (set_size 0 AodvExample_new))
                      (totalTime (set_size 0 AodvExample_new))
                      (pcap (set_size 0 AodvExample_new))
                      (printRoutes (set_size 0 AodvExample_new)))
        = Done tt w
        /\ w_NodeList w = []
        /\ nodes (this w) = []
        /\ devices (this w) = []
        /\ interfaces (this w) = []
        /\ w_apps (world_of (main half_draw no_node)) = []).
Proof.
  apply (C4_degenerate half_draw one_node no_node
           (set_size 1 AodvExample_new) (set_size 0 AodvExample_new));
    reflexivity.
Defined.

(** C4 as stated fails: with size=1 a flow is scheduled, from node 0 to the
    address of node 0 itself; and with size=0 the run does not get to a clean
    exit, because the installation of the applications asks the empty
    interface container for entry size-1. *)
Lemma C4_counterexample :
  (exists w app,
     main half_draw one_node = Done 0 w
     /\ w_apps w = [app]
     /\ app_node app = 0%nat
     /\ app_remote app = Address_inet (ipv4 10 0 0 1) 80
     /\ app_start app = Some (3 # 2)%Q
     /\ app_stop app = Some 10%Q)
  /\ (exists w, main half_draw no_node = Aborted OutOfRange w /\ w_runs w = []).
Proof.
  split.
  - do 2 eexists. split; [vm_compute; reflexivity|]. repeat split.
  - eexists. split; [rewrite main_closed; reflexivity|].
    reflexivity.
Qed.

(** C5: during any run the fire times of the dispatched events never
    decrease, events of equal fire time are dispatched in the order of
    their insertion, and no event fires later than the configured stop
    time, totalTime seconds.  This holds of either event loop [main]
    enters, after any number of dispatches, whatever the events do, as long
    as they schedule nothing into the past. *)
Theorem C5_dispatch_order (RandU01 : Z -> Z -> Q)
  (handler : Action -> Time -> list (Simulator.Command Action))
  (argv : list Arg) (w : World) (r : RunStart) (fuel : nat) :
  Simulator.causal handler ->
  main RandU01 argv = Done 0 w ->
  In r (w_runs w) ->
  StronglySorted (fun e1 e2 => (Simulator.ev_time e1 <= Simulator.ev_time e2)%Q)
                 (fst (Simulator.Run handler fuel (run_sim r)))
  /\ StronglySorted Simulator.key_lt (fst (Simulator.Run handler fuel (run_sim r)))
  /\ Forall (fun e => (Simulator.ev_time e <= Seconds (totalTime (this w)))%Q)
            (fst (Simulator.Run handler fuel (run_sim r))).
Proof.
  intros Hc E Hr.
  destruct (runs_of_main RandU01 argv w r E Hr) as [Hwf Hstop].
  assert (Hs : StronglySorted Simulator.key_lt
                 (fst (Simulator.Run handler fuel (run_sim r))))
    by now apply Run_sorted.
  split; [|split].
  - eapply StronglySorted_weaken; [|exact Hs]. apply key_lt_time.
  - exact Hs.
  - eapply Forall_impl; [|apply (Run_within Action handler fuel _ _ Hstop)].
    intros e He. cbv beta in He. unfold Seconds in *. lra.
Qed.

Lemma C5_dispatch_order_witness :
  StronglySorted (fun e1 e2 => (Simulator.ev_time e1 <= Simulator.ev_time e2)%Q)
                 (fst (Simulator.Run follow_up 30 (run_sim first_loop)))
  /\ StronglySorted Simulator.key_lt
                    (fst (Simulator.Run follow_up 30 (run_sim first_loop)))
  /\ Forall (fun e => (Simulator.ev_time e <= Seconds (totalTime (this default_run)))%Q)
            (fst (Simulator.Run follow_up 30 (run_sim first_loop))).
Proof.
  apply (C5_dispatch_order half_draw follow_up [] default_run first_loop 30).
  - exact follow_up_causal.
  - exact main_default_run.
  - exact first_loop_In.
Defined.

(** C6: after InstallInternetStack has completed, every node has exactly
    one assigned address, the assigned addresses are pairwise distinct, each
    lies in the subnet 10.0.0.0 with mask 255.0.0.0, and the addresses stay
    as they are for the remainder of the run. *)
Theorem C6_addresses (RandU01 : Z -> Z -> Q) (sz : Z) (st tm : Q) (pc pr : bool)
  (w : World) :
  0 <= sz <= uint32_max ->
  (CreateNodes ;; CreateDevices ;; InstallInternetStack)
    (configured sz st tm pc pr) = Done tt w ->
  map if_node (interfaces (this w)) = nodes (this w)
  /\ List.length (nodes (this w)) = Z.to_nat sz
  /\ NoDup (nodes (this w))
  /\ NoDup (map if_address (interfaces (this w)))
  /\ Forall (fun e => Ipv4AddressHelper.in_subnet (ipv4 10 0 0 0) (ipv4 255 0 0 0)
                        (if_address e))
            (interfaces (this w))
  /\ interfaces (this (world_of (Run RandU01 (configured sz st tm pc pr))))
     = interfaces (this w).
Proof.
  intros Hsz E. rewrite setup_closed in E by assumption.
  destruct (sz <=? pool_max) eqn:Hp; [|discriminate].
  apply Z.leb_le in Hp. injection E as <-.
  unfold networked at 1 2 3 4 5 6. unfold equipped, created. fields.
  repeat split.
  - rewrite map_map. cbn [interface_of if_node]. apply map_id.
  - apply length_seq.
  - apply seq_NoDup.
  - apply interface_addresses_NoDup. lia.
  - apply Forall_forall. intros e He. apply in_map_iff in He.
    destruct He as [p [<- Hin]]. apply in_seq in Hin.
    cbn [interface_of if_address]. apply host_in_subnet.
    rewrite pool_max_eq in Hp. lia.
  - rewrite Run_closed by assumption.
    destruct (sz =? 0) eqn:E0.
    + apply Z.eqb_eq in E0. subst sz. reflexivity.
    + replace (sz <=? pool_max) with true by (symmetry; apply Z.leb_le; lia).
      cbn [world_of]. unfold finished, installed, networked, equipped, created.
      fields. reflexivity.
Qed.

Lemma C6_addresses_witness :
  map if_node (interfaces (this (networked 4 100 100 false true)))
  = nodes (this (networked 4 100 100 false true))
  /\ List.length (nodes (this (networked 4 100 100 false true))) = Z.to_nat 4
  /\ NoDup (nodes (this (networked 4 100 100 false true)))
  /\ NoDup (map if_address (interfaces (this (networked 4 100 100 false true))))
  /\ Forall (fun e => Ipv4AddressHelper.in_subnet (ipv4 10 0 0 0) (ipv4 255 0 0 0)
                        (if_address e))
            (interfaces (this (networked 4 100 100 false true)))
  /\ interfaces (this (world_of (Run half_draw (configured 4 100 100 false true))))
     = interfaces (this (networked 4 100 100 false true)).
Proof.
  apply (C6_addresses half_draw 4 100 100 false true (networked 4 100 100 false true)).
  - unfold uint32_max. lia.
  - reflexivity.
Defined.

(** C7: one execution of the program enters the event loop
    (Simulator::Run) twice: once at the end of the installation of the
    applications, and once more in the Run driver. *)
Theorem C7_two_runs (RandU01 : Z -> Z -> Q) (argv : list Arg) (w : World) :
  main RandU01 argv = Done 0 w ->
  exists a w1 r1 r2,
    parsed argv = Some a
    /\ (CreateNodes ;; CreateDevices ;; InstallInternetStack ;;
        InstallApplications RandU01)
         (configured (size a) (step a) (totalTime a) (pcap a) (printRoutes a))
       = Done tt w1
    /\ w_runs w1 = [r1]
    /\ w_runs w = [r1; r2]
    /\ Simulator.stop_time (run_sim r1) = Some (0 + Seconds (totalTime a))%Q
    /\ Simulator.stop_time (run_sim r2) = Some (0 + Seconds (totalTime a))%Q.
Proof.
  intros E. apply main_Done_inv in E.
  destruct E as [a [Ea [Hs [_ ->]]]].
  pose proof (parsed_pristine argv a Ea) as [_ [_ [_ Hr]]].
  exists a, (installed RandU01 (size a) (step a) (totalTime a) (pcap a) (printRoutes a)).
  do 2 eexists. split; [assumption|]. split.
  - unfold bind at 1. rewrite CreateNodes_created by assumption.
    unfold bind at 1. rewrite CreateDevices_equipped.
    unfold bind at 1. rewrite InstallInternetStack_networked by lia.
    replace (size a <=? pool_max) with true by (symmetry; apply Z.leb_le; lia).
    apply InstallApplications_installed. rewrite pool_max_eq in Hs.
    unfold uint32_max. lia.
  - unfold finished, installed. fields. cbn [app].
    split; [reflexivity|]. split; [reflexivity|].
    cbn [run_sim Simulator.Stop Simulator.stop_time Simulator.now].
    split; [|reflexivity].
    unfold networked. fields. now destruct (printRoutes a).
Qed.

Lemma C7_two_runs_witness :
  exists a w1 r1 r2,
    parsed [] = Some a
    /\ (CreateNodes ;; CreateDevices ;; InstallInternetStack ;;
        InstallApplications half_draw)
         (configured (size a) (step a) (totalTime a) (pcap a) (printRoutes a))
       = Done tt w1
    /\ w_runs w1 = [r1]
    /\ w_runs default_run = [r1; r2]
    /\ Simulator.stop_time (run_sim r1) = Some (0 + Seconds (totalTime a))%Q
    /\ Simulator.stop_time (run_sim r2) = Some (0 + Seconds (totalTime a))%Q.
Proof.
  apply (C7_two_runs half_draw [] default_run). exact main_default_run.
Defined.

(** C8, as the code has it: Configure returns true whenever it returns, so
    the failure branch of main is never taken; a command line that does
    not parse ends the process inside CommandLine::Parse, before anything
    of the topology is built, and on no other input does the process end
    there; and a run that completes returns the exit code 0, which every
    valid command line asking for 1 to 16777214 nodes leads to. *)
Theorem C8_exit_behaviour (RandU01 : Z -> Z -> Q) (argv : list Arg) :
  (forall w b w', Configure argv w = Done b w' -> b = true)
  /\ (forall msg w, main RandU01 argv <> Aborted (FatalError msg) w)
  /\ (parsed argv = None <-> exists w, main RandU01 argv = Aborted ParseExit w)
  /\ (forall w, main RandU01 argv = Aborted ParseExit w ->
                w_NodeList w = [] /\ nodes (this w) = [] /\ w_devices w = []
                /\ w_sockets w = [] /\ w_runs w = [] /\ w_cout w = [])
  /\ (forall a, parsed argv = Some a -> 1 <= size a <= pool_max ->
                exists w, main RandU01 argv = Done 0 w)
  /\ (forall c w, main RandU01 argv = Done c w -> c = 0).
Proof.
  assert (Hparse : forall w, main RandU01 argv = Aborted ParseExit w ->
                             parsed argv = None
                             /\ w = set_seed 12345 (boot AodvExample_new)).
  { intros w. rewrite main_closed.
    destruct (parsed argv) as [a|]; [|intros E; now injection E as <-].
    cbv zeta. destruct (size a =? 0); [discriminate|].
    destruct (size a <=? pool_max); discriminate. }
  split; [|split; [|split; [|split; [|split]]]].
  - intros w b w'. unfold Configure, bind, SeedManager_SetSeed, modify, ret.
    destruct (CommandLine.Parse _ argv _); [|discriminate].
    intros E. now injection E as <- _.
  - intros msg w. rewrite main_closed.
    destruct (parsed argv) as [a|]; [|discriminate].
    cbv zeta. destruct (size a =? 0); [discriminate|].
    destruct (size a <=? pool_max); discriminate.
  - split.
    + intros E. rewrite main_closed, E. eexists. reflexivity.
    + intros [w E]. apply Hparse in E. apply E.
  - intros w E. apply Hparse in E. destruct E as [_ ->]. repeat split.
  - intros a Ea Hs. eexists. exact (main_completes RandU01 argv a Ea Hs).
  - intros c w E. apply main_Done_inv in E. now destruct E as [a [_ [_ [-> _]]]].
Qed.

(** C8 as stated fails: with an invalid flag the process ends inside
    CommandLine::Parse, and the failure branch of main, with its message
    `Configuration failed. Aborted.`, is not what ends it. *)
Lemma C8_counterexample :
  parsed bad_flag = None
  /\ main half_draw bad_flag = Aborted ParseExit (set_seed 12345 (boot AodvExample_new))
  /\ forall w, main half_draw bad_flag
               <> Aborted (FatalError "Configuration failed. Aborted.") w.
Proof.
  split; [reflexivity|]. split; [reflexivity|]. intros w. discriminate.
Qed.

(** C9: before the simulation starts, every node, for all i in [0, N), has
    a passive receive endpoint: a UDP socket bound to port 80 with the
    receive callback installed. *)
Theorem C9_receive_sinks (RandU01 : Z -> Z -> Q) (argv : list Arg) (w : World) :
  main RandU01 argv = Done 0 w ->
  exists first rest,
    w_runs w = first :: rest
    /\ List.length (run_sockets first) = List.length (nodes (this w))
    /\ Z.of_nat (List.length (nodes (this w))) = size (this w)
    /\ forall i, 0 <= i < size (this w) ->
         exists node k,
           nth_error (nodes (this w)) (Z.to_nat i) = Some node
           /\ nth_error (run_sockets first) (Z.to_nat i) = Some k
           /\ sock_node k = node
           /\ sock_tid k = "ns3::UdpSocketFactory"
           /\ sock_local k = Some (mkInet Ipv4_GetAny 80)
           /\ sock_recv k = Some Cb_ReceiveRoutingPacket.
Proof.
  intros E. apply main_Done_inv in E.
  destruct E as [a [Ea [Hs [_ ->]]]].
  pose proof (parsed_pristine argv a Ea) as [_ [_ [_ Hr]]].
  do 2 eexists. unfold finished, installed, networked, equipped, created. fields.
  cbn [app]. split; [reflexivity|]. cbn [run_sockets].
  split; [now rewrite length_map|]. split; [rewrite length_seq; lia|].
  intros i Hi. exists (Z.to_nat i), (recv_sink (Z.to_nat i)).
  rewrite nth_error_seq_0, nth_error_map_seq by lia. repeat split.
Qed.

Lemma C9_receive_sinks_witness :
  exists first rest,
    w_runs default_run = first :: rest
    /\ List.length (run_sockets first) = List.length (nodes (this default_run))
    /\ Z.of_nat (List.length (nodes (this default_run))) = size (this default_run)
    /\ forall i, 0 <= i < size (this default_run) ->
         exists node k,
           nth_error (nodes (this default_run)) (Z.to_nat i) = Some node
           /\ nth_error (run_sockets first) (Z.to_nat i) = Some k
           /\ sock_node k = node
           /\ sock_tid k = "ns3::UdpSocketFactory"
           /\ sock_local k = Some (mkInet Ipv4_GetAny 80)
           /\ sock_recv k = Some Cb_ReceiveRoutingPacket.
Proof.
  apply (C9_receive_sinks half_draw [] default_run). exact main_default_run.
Defined.

(** C10: with no command-line flags the parameters keep the defaults
    size=10, step=100, time=100, pcap=false, printRoutes=true; and with
    printRoutes true, the dump of the routing tables is scheduled at 8
    seconds, with one event per node writing to the dump file
    aodv.routes. *)
Theorem C10_defaults_and_dump (sz : Z) (st tm : Q) (pc : bool) (w : World) :
  0 <= sz <= uint32_max ->
  (CreateNodes ;; CreateDevices ;; InstallInternetStack)
    (configured sz st tm pc true) = Done tt w ->
  (exists w0,
     Configure [] (boot AodvExample_new) = Done true w0
     /\ size (this w0) = 10 /\ step (this w0) = 100%Q
     /\ totalTime (this w0) = 100%Q /\ pcap (this w0) = false
     /\ printRoutes (this w0) = true)
  /\ w_files w = ["aodv.routes"]
  /\ map (fun e => (Simulator.ev_time e, Simulator.ev_action e))
         (Simulator.queue (w_sim w))
     = map (fun node => (Seconds 8, PrintRoutingTable node "aodv.routes"))
           (nodes (this w)).
Proof.
  intros Hsz E. rewrite setup_closed in E by assumption.
  destruct (sz <=? pool_max); [|discriminate]. injection E as <-.
  split; [|split].
  - eexists. split; [rewrite Configure_closed; reflexivity|]. repeat split.
  - reflexivity.
  - unfold networked, equipped, created. fields.
    cbn [dump_queue Simulator.queue]. rewrite map_map. reflexivity.
Qed.

Lemma C10_defaults_and_dump_witness :
  (exists w0,
     Configure [] (boot AodvExample_new) = Done true w0
     /\ size (this w0) = 10 /\ step (this w0) = 100%Q
     /\ totalTime (this w0) = 100%Q /\ pcap (this w0) = false
     /\ printRoutes (this w0) = true)
  /\ w_files (networked 10 100 100 false true) = ["aodv.routes"]
  /\ map (fun e => (Simulator.ev_time e, Simulator.ev_action e))
         (Simulator.queue (w_sim (networked 10 100 100 false true)))
     = map (fun node => (Seconds 8, PrintRoutingTable node "aodv.routes"))
           (nodes (this (networked 10 100 100 false true))).
Proof.
  apply (C10_defaults_and_dump 10 100 100 false (networked 10 100 100 false true)).
  - unfold uint32_max. lia.
  - rewrite setup_closed by (unfold uint32_max; lia). reflexivity.
Defined.

(** * Further properties of the script *)

(** ** The names of the nodes *)

(** The decimal writing of a number tells the number. *)
Lemma show_uint_inj (a b : Z) :
  0 <= a -> 0 <= b -> show_uint a = show_uint b -> a = b.
Proof.
  intros Ha Hb E. unfold show_uint in E.
  assert (Hnn : forall n, N.to_uint n <> Decimal.Nil).
  { intros [|p]; [discriminate | apply DecimalPos.Unsigned.to_uint_nonnil]. }
  assert (E' : Some (N.to_uint (Z.to_N a)) = Some (N.to_uint (Z.to_N b))).
  { rewrite <- (NilZero.usu _ (Hnn (Z.to_N a))), <- (NilZero.usu _ (Hnn (Z.to_N b))).
    now rewrite E. }
  injection E' as E'. apply DecimalN.Unsigned.to_uint_inj in E'.
  apply Z2N.inj in E'; assumption.
Qed.

(** [CreateNodes] names node [i] `node-<i>`: the registry holds one name
    per node, in node order; no two nodes share a name, and no node has
    two. *)
Theorem node_names_distinct (sz : Z) (st tm : Q) (pc pr : bool) :
  0 <= sz <= uint32_max ->
  exists w,
    CreateNodes (configured sz st tm pc pr) = Done tt w
    /\ List.length (w_Names w) = Z.to_nat sz
    /\ (forall i, 0 <= i < sz ->
          nth_error (w_Names w) (Z.to_nat i)
          = Some ([T_str "node-"; T_uint i], Z.to_nat i)
          /\ nth_error (nodes (this w)) (Z.to_nat i) = Some (Z.to_nat i)
          /\ forall fmt, render fmt [T_str "node-"; T_uint i]
                         = ("node-" ++ show_uint i)%string)
    /\ (forall fmt, NoDup (map (fun e => render fmt (fst e)) (w_Names w)))
    /\ NoDup (map snd (w_Names w)).
Proof.
  intros Hsz. exists (created sz st tm pc pr).
  split; [now apply CreateNodes_created|].
  unfold created. fields. split; [now rewrite length_map, length_seq|].
  split; [|split].
  - intros i Hi. rewrite nth_error_map_seq by lia.
    rewrite nth_error_seq_0 by lia. unfold node_name. rewrite Z2Nat.id by lia.
    repeat split. intros fmt. cbn [render render_token].
    now rewrite string_app_nil_r.
  - intros fmt. rewrite map_map. apply NoDup_map_NoDup_ForallPairs; [|apply seq_NoDup].
    intros p q _ _ E. unfold node_name in E. cbn [fst render render_token] in E.
    rewrite !string_app_nil_r in E. cbn in E. injection E as E.
    apply show_uint_inj in E; lia.
  - rewrite map_map. cbn [node_name snd]. rewrite map_id. apply seq_NoDup.
Qed.

(** Four nodes. *)
Lemma node_names_distinct_witness :
  exists w,
    CreateNodes (configured 4 100 100 false true) = Done tt w
    /\ List.length (w_Names w) = Z.to_nat 4
    /\ (forall i, 0 <= i < 4 ->
          nth_error (w_Names w) (Z.to_nat i)
          = Some ([T_str "node-"; T_uint i], Z.to_nat i)
          /\ nth_error (nodes (this w)) (Z.to_nat i) = Some (Z.to_nat i)
          /\ forall fmt, render fmt [T_str "node-"; T_uint i]
                         = ("node-" ++ show_uint i)%string)
    /\ (forall fmt, NoDup (map (fun e => render fmt (fst e)) (w_Names w)))
    /\ NoDup (map snd (w_Names w)).
Proof.
  apply (node_names_distinct 4 100 100 false true). unfold uint32_max. lia.
Defined.

(** ** The devices *)

Lemma nth_error_map_Some {A B : Type} (f : A -> B) (l : list A) (i : nat) (x : A) :
  nth_error l i = Some x -> nth_error (map f l) i = Some (f x).
Proof. intros H. now rewrite nth_error_map, H. Qed.

Lemma nth_error_seq_from (k n i : nat) :
  (i < n)%nat -> nth_error (seq k n) i = Some (k + i)%nat.
Proof.
  revert k i. induction n as [|n IH]; intros k [|i] H; simpl; try lia.
  - f_equal. lia.
  - rewrite IH by lia. f_equal. lia.
Qed.

(** [CreateDevices], in any world: it returns; every node of the
    container gets one new device, in node order, with the ad-hoc MAC and on
    the one channel created; the devices that existed stay as they are;
    capture is switched on under the prefix `aodv` exactly when [pcap] is
    set; the nodes and the scheduler are left alone. *)
Theorem CreateDevices_one_per_node (w : World) :
  exists w',
    CreateDevices w = Done tt w'
    /\ List.length (devices (this w')) = List.length (nodes (this w'))
    /\ (forall i node,
          nth_error (nodes (this w)) i = Some node ->
          exists d,
            nth_error (devices (this w')) i = Some d
            /\ nth_error (w_devices w') d
               = Some (mkNetDevice node "ns3::AdhocWifiMac" 0))
    /\ (forall d, (d < List.length (w_devices w))%nat ->
                  nth_error (w_devices w') d = nth_error (w_devices w) d)
    /\ List.length (w_devices w')
       = (List.length (w_devices w) + List.length (nodes (this w)))%nat
    /\ w_pcap w' = w_pcap w ++ (if pcap (this w) then ["aodv"] else [])
    /\ nodes (this w') = nodes (this w)
    /\ w_NodeList w' = w_NodeList w
    /\ w_sim w' = w_sim w.
Proof.
  unfold CreateDevices, bind, WifiHelper_Install, modify, gets. fields.
  destruct (pcap (this w)) eqn:P.
  - eexists. split; [unfold EnablePcapAll, modify; reflexivity|]. fields.
    rewrite length_seq. split; [reflexivity|]. split; [|split; [|split]].
    + intros i node Hi. exists (List.length (w_devices w) + i)%nat.
      assert (Hlt : (i < List.length (nodes (this w)))%nat)
        by (apply nth_error_Some; congruence).
      split; [now apply nth_error_seq_from|].
      rewrite nth_error_app2 by lia.
      replace (List.length (w_devices w) + i - List.length (w_devices w))%nat
        with i by lia.
      now apply (nth_error_map_Some (fun p => mkNetDevice p "ns3::AdhocWifiMac" 0)).
    + intros d Hd. now rewrite nth_error_app1.
    + now rewrite length_app, length_map.
    + repeat split; reflexivity.
  - eexists. split; [unfold ret; reflexivity|]. fields.
    rewrite length_seq. split; [reflexivity|]. split; [|split; [|split]].
    + intros i node Hi. exists (List.length (w_devices w) + i)%nat.
      assert (Hlt : (i < List.length (nodes (this w)))%nat)
        by (apply nth_error_Some; congruence).
      split; [now apply nth_error_seq_from|].
      rewrite nth_error_app2 by lia.
      replace (List.length (w_devices w) + i - List.length (w_devices w))%nat
        with i by lia.
      now apply (nth_error_map_Some (fun p => mkNetDevice p "ns3::AdhocWifiMac" 0)).
    + intros d Hd. now rewrite nth_error_app1.
    + now rewrite length_app, length_map.
    + rewrite app_nil_r. repeat split; reflexivity.
Qed.

(** ** The command line *)

(** Parsing a command line piece by piece. *)
Lemma Parse_app {Obj : Type} (cmd : CommandLine.t Obj) (l1 l2 : list Arg) :
  forall o,
    CommandLine.Parse cmd (l1 ++ l2) o
    = match CommandLine.Parse cmd l1 o with
      | Some o' => CommandLine.Parse cmd l2 o'
      | None => None
      end.
Proof.
  induction l1 as [|x l1 IH]; intros o; cbn [app CommandLine.Parse]; [reflexivity|].
  destruct (CommandLine.lookup cmd (arg_name x)) as [it|]; [|reflexivity].
  destruct (CommandLine.item_set it (arg_value x) o) as [o1|]; [|reflexivity].
  apply IH.
Qed.










(** ** The flow and the trace subscription *)



(** ** The standard output *)

(** What [main] writes to the standard output: nothing when the command
    line does not parse; the line of [CreateNodes] when the run ends before
    its end; and after that line the one of [Run] when the run completes. *)
Theorem stdout_of_main (RandU01 : Z -> Z -> Q) (argv : list Arg) (fmt : Q -> string) :
  match main RandU01 argv with
  | Done _ w =>
      render fmt (w_cout w)
      = ("Creating " ++ show_uint (size (this w)) ++ " nodes "
         ++ fmt (step (this w)) ++ " m apart." ++ endl
         ++ "Starting simulation for " ++ fmt (totalTime (this w)) ++ " s ..."
         ++ endl)%string
  | Aborted ParseExit w => w_cout w = []
  | Aborted _ w =>
      render fmt (w_cout w)
      = ("Creating " ++ show_uint (size (this w)) ++ " nodes "
         ++ fmt (step (this w)) ++ " m apart." ++ endl)%string
  end.
Proof.
  rewrite main_closed. destruct (parsed argv) as [a|]; [|reflexivity]. cbv zeta.
  destruct (size a =? 0) eqn:Z0.
  - apply Z.eqb_eq in Z0.
    unfold networked, equipped, created. fields. cbn [render render_token].
    rewrite !string_app_nil_r. reflexivity.
  - destruct (size a <=? pool_max).
    + unfold finished, installed, networked, equipped, created. fields.
      cbn [app render render_token]. rewrite !string_app_nil_r.
      reflexivity.
    + unfold equipped, created. fields. cbn [render render_token].
      rewrite !string_app_nil_r. reflexivity.
Qed.

(** ** The two event loops *)



(** ** The capture flag *)

(** The flag [pcap] decides whether capture is switched on, and nothing
    else: [Run] ends the same way, and in the same world up to the flag and
    the capture prefix. *)
Theorem pcap_changes_capture_only (RandU01 : Z -> Z -> Q) (sz : Z) (st tm : Q)
  (pr : bool) :
  0 <= sz <= uint32_max ->
  let on := Run RandU01 (configured sz st tm true pr) in
  let off := Run RandU01 (configured sz st tm false pr) in
  w_pcap (world_of on) = ["aodv"]
  /\ w_pcap (world_of off) = []
  /\ world_of off
     = set_w_pcap [] (set_this (set_pcap false (this (world_of on))) (world_of on))
  /\ match on, off with
     | Done _ _, Done _ _ => True
     | Aborted e _, Aborted e' _ => e = e'
     | _, _ => False
     end.
Proof.
  intros Hsz. cbv zeta. rewrite !Run_closed by assumption.
  destruct (sz =? 0).
  - cbn [world_of]. repeat split.
  - destruct (sz <=? pool_max); cbn [world_of]; repeat split.
Qed.

(** Four nodes. *)
Lemma pcap_changes_capture_only_witness :
  let on := Run half_draw (configured 4 100 100 true true) in
  let off := Run half_draw (configured 4 100 100 false true) in
  w_pcap (world_of on) = ["aodv"]
  /\ w_pcap (world_of off) = []
  /\ world_of off
     = set_w_pcap [] (set_this (set_pcap false (this (world_of on))) (world_of on))
  /\ match on, off with
     | Done _ _, Done _ _ => True
     | Aborted e _, Aborted e' _ => e = e'
     | _, _ => False
     end.
Proof.
  apply (pcap_changes_capture_only half_draw 4 100 100 true).
  unfold uint32_max. lia.
Defined.

(** ** The stack *)

(** After [InstallInternetStack]: every node runs AODV and has kept its
    identifier, its position and its name; device [i] sits on node [i] and
    interface [i] on device [i]; and no socket or application is installed
    yet. *)
Theorem stack_matches_topology (sz : Z) (st tm : Q) (pc pr : bool) (w : World) :
  0 <= sz <= uint32_max ->
  (CreateNodes ;; CreateDevices ;; InstallInternetStack)
    (configured sz st tm pc pr) = Done tt w ->
  Forall (fun n => node_routing n = Some "aodv") (w_NodeList w)
  /\ map node_id (w_NodeList w) = map Z.of_nat (nodes (this w))
  /\ map node_mobility (w_NodeList w)
     = map node_mobility (w_NodeList (created sz st tm pc pr))
  /\ map if_device (interfaces (this w)) = devices (this w)
  /\ map dev_node (w_devices w) = nodes (this w)
  /\ (forall e, In e (interfaces (this w)) ->
        exists dev, nth_error (w_devices w) (if_device e) = Some dev
                    /\ dev_node dev = if_node e)
  /\ w_Names w = w_Names (created sz st tm pc pr)
  /\ w_sockets w = [] /\ w_apps w = [] /\ w_runs w = [].
Proof.
  intros Hsz E. rewrite setup_closed in E by assumption.
  destruct (sz <=? pool_max); [|discriminate]. injection E as <-.
  unfold networked, equipped, created. fields.
  split; [|split; [|split; [|split; [|split; [|split]]]]].
  - apply Forall_forall. intros n Hn. apply in_map_iff in Hn.
    destruct Hn as [p [<- _]]. reflexivity.
  - rewrite map_map. reflexivity.
  - rewrite !map_map. reflexivity.
  - rewrite map_map. cbn [interface_of if_device]. apply map_id.
  - rewrite map_map. cbn [wifi_device dev_node]. apply map_id.
  - intros e He. apply in_map_iff in He. destruct He as [p [<- Hp]].
    apply in_seq in Hp. exists (wifi_device p). cbn [interface_of if_device if_node].
    split; [|reflexivity]. apply nth_error_map_seq. lia.
  - repeat split; reflexivity.
Qed.

(** Four nodes. *)
Lemma stack_matches_topology_witness :
  Forall (fun n => node_routing n = Some "aodv")
         (w_NodeList (networked 4 100 100 false true))
  /\ map node_id (w_NodeList (networked 4 100 100 false true))
     = map Z.of_nat (nodes (this (networked 4 100 100 false true)))
  /\ map node_mobility (w_NodeList (networked 4 100 100 false true))
     = map node_mobility (w_NodeList (created 4 100 100 false true))
  /\ map if_device (interfaces (this (networked 4 100 100 false true)))
     = devices (this (networked 4 100 100 false true))
  /\ map dev_node (w_devices (networked 4 100 100 false true))
     = nodes (this (networked 4 100 100 false true))
  /\ (forall e, In e (interfaces (this (networked 4 100 100 false true))) ->
        exists dev,
          nth_error (w_devices (networked 4 100 100 false true)) (if_device e)
          = Some dev
          /\ dev_node dev = if_node e)
  /\ w_Names (networked 4 100 100 false true)
     = w_Names (created 4 100 100 false true)
  /\ w_sockets (networked 4 100 100 false true) = []
  /\ w_apps (networked 4 100 100 false true) = []
  /\ w_runs (networked 4 100 100 false true) = [].
Proof.
  apply (stack_matches_topology 4 100 100 false true (networked 4 100 100 false true)).
  - unfold uint32_max. lia.
  - rewrite setup_closed by (unfold uint32_max; lia). reflexivity.
Defined.

(** ** How [main] ends *)

(** [main] returns exactly when the command line is valid and asks for
    1 to 16777214 nodes.  With no node the run ends in
    [InstallApplications], which reads the empty interface container out of
    range; with more nodes it ends in [InstallInternetStack], the address
    pool exhausted. *)
Theorem main_returns_iff (RandU01 : Z -> Z -> Q) (argv : list Arg) (a : AodvExample) :
  parsed argv = Some a ->
  ((exists w, main RandU01 argv = Done 0 w) <-> 1 <= size a <= 16777214)
  /\ main RandU01 argv
     = if (1 <=? size a) && (size a <=? 16777214)
       then Done 0 (world_of (main RandU01 argv))
       else Aborted (if size a =? 0 then OutOfRange else AddressOverflow)
                    (world_of (main RandU01 argv)).
Proof.
  intros E. pose proof (parsed_pristine argv a E) as [_ [_ [_ Hs]]].
  rewrite main_closed, E. cbv zeta. rewrite pool_max_eq.
  split; [split|].
  - intros [w Hw]. destruct (size a =? 0) eqn:Z0; [discriminate|].
    destruct (size a <=? 16777214) eqn:Zm; [|discriminate].
    apply Z.eqb_neq in Z0. apply Z.leb_le in Zm. lia.
  - intros H. destruct (size a =? 0) eqn:Z0; [apply Z.eqb_eq in Z0; lia|].
    destruct (size a <=? 16777214) eqn:Zm; [|apply Z.leb_gt in Zm; lia].
    eexists. reflexivity.
  - destruct (size a =? 0) eqn:Z0.
    + apply Z.eqb_eq in Z0. rewrite Z0. reflexivity.
    + apply Z.eqb_neq in Z0.
      assert (H1 : (1 <=? size a) = true) by (apply Z.leb_le; lia).
      rewrite H1. cbn [andb]. destruct (size a <=? 16777214); reflexivity.
Qed.

(** One node. *)
Lemma main_returns_iff_witness :
  ((exists w, main half_draw one_node = Done 0 w)
   <-> 1 <= size (set_size 1 AodvExample_new) <= 16777214)
  /\ main half_draw one_node
     = if (1 <=? size (set_size 1 AodvExample_new))
          && (size (set_size 1 AodvExample_new) <=? 16777214)
       then Done 0 (world_of (main half_draw one_node))
       else Aborted (if size (set_size 1 AodvExample_new) =? 0
                     then OutOfRange else AddressOverflow)
                    (world_of (main half_draw one_node)).
Proof.
  apply (main_returns_iff half_draw one_node (set_size 1 AodvExample_new)).
  reflexivity.
Defined.

(** More nodes than 10.0.0.0/255.0.0.0 has host addresses: the run ends
    in [InstallInternetStack], with the nodes and the devices created and
    the stacks installed, but with no interface kept, no dump file opened,
    nothing scheduled, and no socket or application installed. *)
Theorem address_pool_exhausted (RandU01 : Z -> Z -> Q) (argv : list Arg)
  (a : AodvExample) :
  parsed argv = Some a ->
  16777214 < size a ->
  exists w,
    main RandU01 argv = Aborted AddressOverflow w
    /\ List.length (w_NodeList w) = Z.to_nat (size a)
    /\ List.length (w_devices w) = Z.to_nat (size a)
    /\ Forall (fun n => node_routing n = Some "aodv") (w_NodeList w)
    /\ interfaces (this w) = []
    /\ w_files w = []
    /\ Simulator.queue (w_sim w) = []
    /\ w_sockets w = [] /\ w_apps w = [] /\ w_runs w = [].
Proof.
  intros E H. pose proof (parsed_pristine argv a E) as [_ [_ [_ Hs]]].
  rewrite main_closed, E. cbv zeta. rewrite pool_max_eq.
  destruct (size a =? 0) eqn:Z0; [apply Z.eqb_eq in Z0; lia|].
  destruct (size a <=? 16777214) eqn:Zm; [apply Z.leb_le in Zm; lia|].
  eexists. split; [reflexivity|].
  unfold equipped, created. fields.
  rewrite !length_map, length_seq.
  split; [reflexivity|]. split; [reflexivity|]. split.
  - apply Forall_forall. intros n Hn. apply in_map_iff in Hn.
    destruct Hn as [p [<- _]]. reflexivity.
  - repeat split; reflexivity.
Qed.

(** One node more than the pool holds. *)
Lemma address_pool_exhausted_witness :
  exists w,
    main half_draw [mkArg "size" (V_uint 16777215)] = Aborted AddressOverflow w
    /\ List.length (w_NodeList w) = Z.to_nat (size (set_size 16777215 AodvExample_new))
    /\ List.length (w_devices w) = Z.to_nat (size (set_size 16777215 AodvExample_new))
    /\ Forall (fun n => node_routing n = Some "aodv") (w_NodeList w)
    /\ interfaces (this w) = []
    /\ w_files w = []
    /\ Simulator.queue (w_sim w) = []
    /\ w_sockets w = [] /\ w_apps w = [] /\ w_runs w = [].
Proof.
  apply (address_pool_exhausted half_draw [mkArg "size" (V_uint 16777215)]
           (set_size 16777215 AodvExample_new)).
  - reflexivity.
  - cbn [size set_size]. lia.
Defined.

(** ** What the installation of the applications leaves alone *)












(** ** The receive callback *)

Lemma update_nth_twice {A : Type} (f g : A -> A) (l : list A) :
  forall n, update_nth n f (update_nth n g l) = update_nth n (fun x => f (g x)) l.
Proof.
  induction l as [|x l IH]; intros [|n]; simpl; try reflexivity.
  now rewrite IH.
Qed.

Lemma update_nth_ext_at {A : Type} (f g : A -> A) (l : list A) :
  forall n x, nth_error l n = Some x -> f x = g x ->
              update_nth n f l = update_nth n g l.
Proof.
  induction l as [|y l IH]; intros [|n] x H E; simpl in *; try discriminate.
  - injection H as ->. now rewrite E.
  - f_equal. now apply (IH n x).
Qed.

Lemma update_nth_fixed {A : Type} (f : A -> A) (l : list A) :
  forall n x, nth_error l n = Some x -> f x = x -> update_nth n f l = l.
Proof.
  induction l as [|y l IH]; intros [|n] x H E; simpl in *; try discriminate.
  - injection H as ->. now rewrite E.
  - f_equal. now apply (IH n x).
Qed.

(** A socket with nothing to read: one round, and nothing changes. *)
Lemma receive_nothing (socket : Ptr) (w : World) (k : Socket) (rounds : nat) :
  nth_error (w_sockets w) socket = Some k -> sock_rx k = [] ->
  ReceiveRoutingPacket_loop (S rounds) socket w = Done tt w.
Proof.
  intros Hk Hrx. cbn [ReceiveRoutingPacket_loop]. unfold bind, Socket_RecvFrom.
  now rewrite Hk, Hrx.
Qed.

(** The world the reading loop leaves. *)
Lemma receive_loop_exact (socket : Ptr) (nd : Node) (rx : list (Packet * Address)) :
  forall (rounds : nat) (w : World) (k : Socket),
    nth_error (w_sockets w) socket = Some k ->
    nth_error (w_NodeList w) (sock_node k) = Some nd ->
    sock_rx k = rx ->
    (List.length rx < rounds)%nat ->
    ReceiveRoutingPacket_loop rounds socket w
    = Done tt
        (set_clog
           (w_clog w
            ++ map (fun pa => T_str "AODV "
                              :: spec_receive_line (Simulator.now (w_sim w))
                                                   (node_id nd) (snd pa)) rx)
           (set_sockets (update_nth socket drained (w_sockets w)) w)).
Proof.
  induction rx as [|[packet src] rx IH]; intros rounds w k Hk Hn Hrx Hr;
    destruct rounds as [|rounds]; try (simpl in Hr; lia).
  - rewrite (receive_nothing socket w k rounds Hk Hrx). f_equal.
    cbn [map]. rewrite app_nil_r.
    rewrite (update_nth_fixed drained (w_sockets w) socket k Hk).
    + now destruct w.
    + destruct k; cbn in *. now subst.
  - cbn [ReceiveRoutingPacket_loop]. unfold bind at 1. unfold Socket_RecvFrom at 1.
    rewrite Hk, Hrx.
    set (g := fun k0 => mkSocket (sock_node k0) (sock_tid k0) (sock_local k0)
                                 (sock_recv k0) rx).
    set (w1 := set_sockets _ w).
    assert (Hk1 : nth_error (w_sockets w1) socket = Some (g k)).
    { unfold w1. fields. exact (nth_error_update_nth _ _ _ _ Hk). }
    unfold bind at 1.
    rewrite (print_line socket packet src w1 (g k) nd Hk1 Hn).
    unfold bind at 1. unfold NS_LOG_UNCOND at 1. unfold modify at 1.
    rewrite (IH rounds _ (g k)); [| exact Hk1 | exact Hn | reflexivity
                                 | simpl in Hr; lia].
    f_equal. unfold w1. fields. rewrite update_nth_twice.
    rewrite (update_nth_ext_at (fun x => drained (g x)) drained (w_sockets w)
               socket k Hk) by reflexivity.
    cbn [map snd]. now rewrite <- app_assoc.
Qed.

(** [ReceiveRoutingPacket] on a socket whose node exists: the world it
    leaves is the one it started in, with one line per unread packet
    appended to the log and that socket drained.  The other sockets stay as
    they are, and a second call right after changes nothing. *)
Theorem ReceiveRoutingPacket_drains (socket : Ptr) (w : World) (k : Socket) (nd : Node) :
  nth_error (w_sockets w) socket = Some k ->
  nth_error (w_NodeList w) (sock_node k) = Some nd ->
  let w' :=
    set_clog
      (w_clog w
       ++ map (fun pa => T_str "AODV "
                         :: spec_receive_line (Simulator.now (w_sim w))
                                              (node_id nd) (snd pa)) (sock_rx k))
      (set_sockets (update_nth socket drained (w_sockets w)) w) in
  ReceiveRoutingPacket socket w = Done tt w'
  /\ ReceiveRoutingPacket socket w' = Done tt w'
  /\ List.length (w_clog w') = (List.length (w_clog w) + List.length (sock_rx k))%nat
  /\ (forall s, s <> socket -> nth_error (w_sockets w') s = nth_error (w_sockets w) s).
Proof.
  intros Hk Hn w'.
  assert (E : ReceiveRoutingPacket socket w = Done tt w').
  { unfold ReceiveRoutingPacket. rewrite Hk.
    apply (receive_loop_exact socket nd (sock_rx k) _ w k Hk Hn eq_refl). lia. }
  assert (Hk' : nth_error (w_sockets w') socket = Some (drained k)).
  { unfold w'. fields. exact (nth_error_update_nth _ _ _ _ Hk). }
  split; [exact E|]. split; [|split].
  - unfold ReceiveRoutingPacket. rewrite Hk'.
    exact (receive_nothing socket w' (drained k) _ Hk' eq_refl).
  - unfold w'. fields. now rewrite length_app, length_map.
  - intros s Hs. unfold w'. fields. clear -Hs.
    revert s socket Hs. induction (w_sockets w) as [|x l IH]; intros [|s] [|n] Hs;
      simpl; try reflexivity; try congruence.
    apply IH. congruence.
Qed.

(** The packet of node 0 at the socket of node 3. *)
Lemma ReceiveRoutingPacket_drains_witness :
  let k := mkSocket 3%nat "ns3::UdpSocketFactory" (Some (mkInet Ipv4_GetAny 80))
                    (Some Cb_ReceiveRoutingPacket) [packet_from_node0] in
  let nd := mkNode 3 (Some (mkVector (0 + 100 * inject_Z 3) (0 + 0 * inject_Z 0) 0))
                   (Some "aodv") in
  let w' :=
    set_clog
      (w_clog delivered
       ++ map (fun pa => T_str "AODV "
                         :: spec_receive_line (Simulator.now (w_sim delivered))
                                              (node_id nd) (snd pa)) (sock_rx k))
      (set_sockets (update_nth 3%nat drained (w_sockets delivered)) delivered) in
  ReceiveRoutingPacket 3%nat delivered = Done tt w'
  /\ ReceiveRoutingPacket 3%nat w' = Done tt w'
  /\ List.length (w_clog w')
     = (List.length (w_clog delivered) + List.length (sock_rx k))%nat
  /\ (forall s, s <> 3%nat ->
                nth_error (w_sockets w') s = nth_error (w_sockets delivered) s).
Proof.
  apply (ReceiveRoutingPacket_drains 3%nat delivered
           (mkSocket 3%nat "ns3::UdpSocketFactory" (Some (mkInet Ipv4_GetAny 80))
                     (Some Cb_ReceiveRoutingPacket) [packet_from_node0])
           (mkNode 3 (Some (mkVector (0 + 100 * inject_Z 3) (0 + 0 * inject_Z 0) 0))
                   (Some "aodv"))).
  - vm_compute. reflexivity.
  - vm_compute. reflexivity.
Defined.

(** [PrintReceivedRoutingPacket] only formats. *)
Lemma print_keeps_world (socket : Ptr) (packet : Packet) (src : Address) (w : World) :
  world_of (PrintReceivedRoutingPacket socket packet src w) = w.
Proof.
  unfold PrintReceivedRoutingPacket, bind, Simulator_Now, gets, Socket_GetNode_GetId.
  destruct (nth_error (w_sockets w) socket) as [k|]; [|reflexivity].
  destruct (nth_error (w_NodeList w) (sock_node k)); [|reflexivity].
  destruct (IsMatchingType src); reflexivity.
Qed.

(** One round of the loop. *)
Lemma receive_loop_step (rounds : nat) (socket : Ptr) (w : World) :
  ReceiveRoutingPacket_loop (S rounds) socket w
  = match nth_error (w_sockets w) socket with
    | None => Aborted OutOfRange w
    | Some k =>
        match sock_rx k with
        | [] => Done tt w
        | (packet, src) :: rest =>
            let w1 :=
              set_sockets
                (update_nth socket
                   (fun k => mkSocket (sock_node k) (sock_tid k) (sock_local k)
                                      (sock_recv k) rest)
                   (w_sockets w)) w in
            match PrintReceivedRoutingPacket socket packet src w1 with
            | Done line w2 =>
                ReceiveRoutingPacket_loop rounds socket
                  (set_clog (w_clog w2 ++ [T_str "AODV " :: line]) w2)
            | Aborted e w2 => Aborted e w2
            end
        end
    end.
Proof.
  cbn [ReceiveRoutingPacket_loop]. unfold bind at 1. unfold Socket_RecvFrom.
  destruct (nth_error (w_sockets w) socket) as [k|]; [|reflexivity].
  destruct (sock_rx k) as [|[packet src] rest]; [reflexivity|].
  cbv zeta. unfold bind at 1.
  destruct (PrintReceivedRoutingPacket socket packet src _); reflexivity.
Qed.

(** The loop of [ReceiveRoutingPacket] ends on its own: rounds beyond the
    number of unread packets change nothing, whether the socket and its
    node exist or not. *)
Theorem ReceiveRoutingPacket_rounds (socket : Ptr) :
  forall (rounds : nat) (w : World),
    (unread socket w < rounds)%nat ->
    ReceiveRoutingPacket_loop rounds socket w = ReceiveRoutingPacket socket w.
Proof.
  assert (H : forall n r1 r2 w,
             unread socket w = n -> (n < r1)%nat -> (n < r2)%nat ->
             ReceiveRoutingPacket_loop r1 socket w
             = ReceiveRoutingPacket_loop r2 socket w).
  { induction n as [|n IH]; intros [|r1] [|r2] w Hu H1 H2; try lia;
      rewrite !receive_loop_step; unfold unread in Hu;
      (destruct (nth_error (w_sockets w) socket) as [k|] eqn:Hk; [|reflexivity]);
      (destruct (sock_rx k) as [|[packet src] rx] eqn:Hrx; [reflexivity|]);
      cbn [List.length] in Hu; try discriminate.
    cbv zeta. set (w1 := set_sockets _ w).
    pose proof (print_keeps_world socket packet src w1) as Hp.
    destruct (PrintReceivedRoutingPacket socket packet src w1) as [line w2|e w2];
      [|reflexivity].
    cbn [world_of] in Hp. subst w2.
    apply (IH r1 r2); try lia.
    unfold unread, w1. fields.
    rewrite (nth_error_update_nth _ _ _ _ Hk). cbn [sock_rx]. lia. }
  intros rounds w Hr. unfold ReceiveRoutingPacket. fold (unread socket w).
  apply (H (unread socket w)); [reflexivity | assumption | lia].
Qed.

(** Five rounds for one unread packet. *)
Lemma ReceiveRoutingPacket_rounds_witness :
  ReceiveRoutingPacket_loop 5 3%nat delivered = ReceiveRoutingPacket 3%nat delivered.
Proof.
  apply (ReceiveRoutingPacket_rounds 3%nat 5 delivered). vm_compute. lia.
Defined.

(** ** Addresses in dotted form *)

Lemma octet_div (a k : Z) : 0 <= k -> octet a k = (a / 2 ^ (8 * k)) mod 256.
Proof.
  intros Hk. unfold octet. rewrite Z.shiftr_div_pow2 by lia.
  change 255 with (Z.ones 8). now rewrite Z.land_ones by lia.
Qed.

(** The four octets of the address of host [h] of 10.0.0.0/8. *)
Lemma host_octets (h : Z) :
  0 <= h < 2 ^ 24 ->
  octet (ipv4 10 0 0 0 + h) 3 = 10
  /\ octet (ipv4 10 0 0 0 + h) 2 = h / 65536
  /\ octet (ipv4 10 0 0 0 + h) 1 = (h / 256) mod 256
  /\ octet (ipv4 10 0 0 0 + h) 0 = h mod 256.
Proof.
  intros Hh. rewrite !octet_div by lia.
  change (ipv4 10 0 0 0) with 167772160.
  change (2 ^ (8 * 3)) with 16777216. change (2 ^ (8 * 2)) with 65536.
  change (2 ^ (8 * 1)) with 256. change (2 ^ (8 * 0)) with 1.
  change (2 ^ 24) with 16777216 in Hh.
  rewrite Z.div_1_r.
  repeat split.
  - replace (167772160 + h) with (h + 10 * 16777216) by lia.
    rewrite Z.div_add by lia. rewrite (Z.div_small h) by lia. reflexivity.
  - replace (167772160 + h) with (h + 2560 * 65536) by lia.
    rewrite Z.div_add by lia.
    replace (h / 65536 + 2560) with (h / 65536 + 10 * 256) by lia.
    rewrite Z.mod_add by lia. apply Z.mod_small.
    split; [apply Z.div_pos; lia|]. apply Z.div_lt_upper_bound; lia.
  - replace (167772160 + h) with (h + 655360 * 256) by lia.
    rewrite Z.div_add by lia.
    replace (h / 256 + 655360) with (h / 256 + 2560 * 256) by lia.
    now rewrite Z.mod_add by lia.
  - replace (167772160 + h) with (h + 655360 * 256) by lia.
    now rewrite Z.mod_add by lia.
Qed.

(** The picture in the header comment of the script: node [i] has the
    address 10.0.0.0 + (i + 1), which is written 10.a.b.c with the digits
    of [i + 1] to the base 256, and 10.0.0.(i+1) for the first 255
    nodes. *)
Theorem addresses_count_from_one (sz : Z) (st tm : Q) (pc pr : bool) (w : World)
  (i : Z) :
  0 <= sz <= uint32_max ->
  (CreateNodes ;; CreateDevices ;; InstallInternetStack)
    (configured sz st tm pc pr) = Done tt w ->
  0 <= i < sz ->
  exists e,
    nth_error (interfaces (this w)) (Z.to_nat i) = Some e
    /\ if_node e = Z.to_nat i
    /\ if_address e = ipv4 10 0 0 0 + (i + 1)
    /\ show_ipv4 (if_address e)
       = ("10." ++ show_uint ((i + 1) / 65536) ++ "."
          ++ show_uint ((i + 1) / 256 mod 256) ++ "."
          ++ show_uint ((i + 1) mod 256))%string
    /\ (i < 255 ->
        if_address e = ipv4 10 0 0 (i + 1)
        /\ show_ipv4 (if_address e) = ("10.0.0." ++ show_uint (i + 1))%string).
Proof.
  intros Hsz E Hi. rewrite setup_closed in E by assumption.
  destruct (sz <=? pool_max) eqn:Hm; [|discriminate]. injection E as <-.
  apply Z.leb_le in Hm. rewrite pool_max_eq in Hm.
  unfold networked. fields.
  exists (interface_of (Z.to_nat i)).
  split; [apply nth_error_map_seq; lia|]. split; [reflexivity|].
  unfold interface_of. cbn [if_address]. rewrite Z2Nat.id by lia.
  assert (Hh : 0 <= i + 1 < 2 ^ 24) by (change (2 ^ 24) with 16777216; lia).
  rewrite host_address by assumption.
  destruct (host_octets (i + 1) Hh) as [O3 [O2 [O1 O0]]].
  split; [reflexivity|]. split.
  - unfold show_ipv4. rewrite O3, O2, O1, O0. reflexivity.
  - intros H255. split.
    + rewrite <- host_address by assumption.
      unfold ipv4. now rewrite !Z.shiftl_0_l, !Z.lor_0_l.
    + unfold show_ipv4. rewrite O3, O2, O1, O0.
      rewrite (Z.div_small (i + 1) 65536) by lia.
      rewrite (Z.div_small (i + 1) 256) by lia.
      rewrite (Z.mod_small (i + 1) 256) by lia.
      reflexivity.
Qed.

(** The last of four nodes. *)
Lemma addresses_count_from_one_witness :
  exists e,
    nth_error (interfaces (this (networked 4 100 100 false true))) (Z.to_nat 3)
    = Some e
    /\ if_node e = Z.to_nat 3
    /\ if_address e = ipv4 10 0 0 0 + (3 + 1)
    /\ show_ipv4 (if_address e)
       = ("10." ++ show_uint ((3 + 1) / 65536) ++ "."
          ++ show_uint ((3 + 1) / 256 mod 256) ++ "."
          ++ show_uint ((3 + 1) mod 256))%string
    /\ (3 < 255 ->
        if_address e = ipv4 10 0 0 (3 + 1)
        /\ show_ipv4 (if_address e) = ("10.0.0." ++ show_uint (3 + 1))%string).
Proof.
  apply (addresses_count_from_one 4 100 100 false true
           (networked 4 100 100 false true) 3).
  - unfold uint32_max. lia.
  - rewrite setup_closed by (unfold uint32_max; lia). reflexivity.
  - lia.
Defined.

(** ** The spacing of the nodes *)



(** ** The dump flag *)



(** ** The order of the flags *)

(** Two values registered under different names are bound to different
    fields. *)
Lemma registered_sets_commute (it1 it2 : CommandLine.Item AodvExample)
  (v1 v2 : Value) (a : AodvExample) :
  In it1 registered -> In it2 registered ->
  CommandLine.item_name it1 <> CommandLine.item_name it2 ->
  match CommandLine.item_set it1 v1 a with
  | Some a1 => CommandLine.item_set it2 v2 a1
  | None => None
  end
  = match CommandLine.item_set it2 v2 a with
    | Some a2 => CommandLine.item_set it1 v1 a2
    | None => None
    end.
Proof.
  intros H1 H2 Hne.
  unfold registered, CommandLine.AddValue_double, CommandLine.AddValue_uint32,
    CommandLine.AddValue_bool in H1, H2. cbn [app] in H1, H2.
  repeat (destruct H1 as [<- | H1]); try contradiction;
    repeat (destruct H2 as [<- | H2]); try contradiction;
    cbn [CommandLine.item_name] in Hne; try congruence;
    cbn [CommandLine.item_set];
    destruct v1 as [b1|n1|d1|s1]; destruct v2 as [b2|n2|d2|s2]; try reflexivity;
    repeat match goal with
           | |- context [(0 <=? ?n) && (?n <=? uint32_max)] =>
               destruct ((0 <=? n) && (n <=? uint32_max))
           end; reflexivity.
Qed.

(** Flags of different names may come in either order: the parameters,
    and with them the run, are the same. *)
Theorem flags_in_any_order (RandU01 : Z -> Z -> Q) (argv : list Arg) (x y : Arg) :
  arg_name x <> arg_name y ->
  parsed (argv ++ [x; y]) = parsed (argv ++ [y; x])
  /\ main RandU01 (argv ++ [x; y]) = main RandU01 (argv ++ [y; x]).
Proof.
  intros Hne.
  assert (E : parsed (argv ++ [x; y]) = parsed (argv ++ [y; x])).
  { unfold parsed. rewrite !Parse_app.
    destruct (CommandLine.Parse registered argv AodvExample_new) as [a|];
      [|reflexivity].
    cbn [CommandLine.Parse].
    destruct (CommandLine.lookup registered (arg_name x)) as [it1|] eqn:L1;
      destruct (CommandLine.lookup registered (arg_name y)) as [it2|] eqn:L2.
    - unfold CommandLine.lookup in L1, L2.
      apply find_some in L1, L2. destruct L1 as [I1 N1], L2 as [I2 N2].
      apply String.eqb_eq in N1, N2.
      pose proof (registered_sets_commute it1 it2 (arg_value x) (arg_value y) a
                    I1 I2) as C.
      destruct (CommandLine.item_set it1 (arg_value x) a) as [a1|];
        destruct (CommandLine.item_set it2 (arg_value y) a) as [a2|].
      + rewrite <- C by congruence.
        destruct (CommandLine.item_set it2 (arg_value y) a1); reflexivity.
      + rewrite C by congruence. reflexivity.
      + rewrite <- C by congruence. reflexivity.
      + reflexivity.
    - destruct (CommandLine.item_set it1 (arg_value x) a); reflexivity.
    - destruct (CommandLine.item_set it2 (arg_value y) a); reflexivity.
    - reflexivity. }
  split; [exact E|]. now rewrite !main_closed, E.
Qed.

(** `--size=4` and `--time=20` after `--pcap=true`. *)
Lemma flags_in_any_order_witness :
  parsed ([mkArg "pcap" (V_bool true)]
          ++ [mkArg "size" (V_uint 4); mkArg "time" (V_uint 20)])
  = parsed ([mkArg "pcap" (V_bool true)]
            ++ [mkArg "time" (V_uint 20); mkArg "size" (V_uint 4)])
  /\ main half_draw ([mkArg "pcap" (V_bool true)]
                     ++ [mkArg "size" (V_uint 4); mkArg "time" (V_uint 20)])
     = main half_draw ([mkArg "pcap" (V_bool true)]
                       ++ [mkArg "time" (V_uint 20); mkArg "size" (V_uint 4)]).
Proof.
  apply (flags_in_any_order half_draw [mkArg "pcap" (V_bool true)]
           (mkArg "size" (V_uint 4)) (mkArg "time" (V_uint 20))).
  discriminate.
Defined.

(** ** The callback on the sockets of a run *)




(** * Examples *)

(** The events that loop dispatches: the ten dumps at 8 seconds, in the
    order of the nodes, and then what followed from them. *)
Example first_loop_dispatch :
  map (fun e => (Simulator.ev_time e, Simulator.ev_seq e))
      (fst (Simulator.Run follow_up 30 (run_sim first_loop)))
  = map (fun k => (8%Q, k)) (seq 0 10) ++ map (fun k => (9%Q, k)) (seq 10 10).
Proof. vm_compute. reflexivity. Qed.


(** ** The scenario of the specification: size=4, step=100 *)

Example four_nodes_positions :
  map node_mobility (w_NodeList four_nodes)
  = [Some (mkVector 0 0 0); Some (mkVector 100 0 0);
     Some (mkVector 200 0 0); Some (mkVector 300 0 0)].
Proof. vm_compute. reflexivity. Qed.

Example four_nodes_addresses :
  map (fun e => show_ipv4 (if_address e)) (interfaces (this four_nodes))
  = ["10.0.0.1"; "10.0.0.2"; "10.0.0.3"; "10.0.0.4"].
Proof. vm_compute. reflexivity. Qed.

Example four_nodes_flow :
  w_apps four_nodes
  = [mkOnOff 0%nat "ns3::UdpSocketFactory" (Address_inet (ipv4 10 0 0 4) 80)
             "ns3::ConstantRandomVariable[Constant=1.0]"
             "ns3::ConstantRandomVariable[Constant=0.0]"
             (Some (3 # 2)%Q) (Some 10%Q)].
Proof. vm_compute. reflexivity. Qed.

Example transmit_line_text :
  render (fun _ => "1.5") (spec_transmit_line (3 # 2) (ipv4 10 0 0 1) (ipv4 10 0 0 4))
  = "1.5 source 10.0.0.1 send to dest 10.0.0.4".
Proof. vm_compute. reflexivity. Qed.

Example receive_line_text :
  render (fun _ => "1.5")
         (T_str "AODV " :: spec_receive_line (3 # 2) 3 (snd packet_from_node0))
  = "AODV 1.5 3 received one packet from 10.0.0.1".
Proof. vm_compute. reflexivity. Qed.

